(** * binance-trade-bot: the ratio-scouting engine of [auto_trader.py]

    A shallow embedding of [AutoTrader] ([src/binance_trade_bot/auto_trader.py])
    and the properties of its scouting, jumping and threshold logic.

    - Python [float] is IEEE 754 binary64: prices, balances, ratios and scores
      are primitive floats, with the same rounding as the interpreter.  The one
      place where Python departs from IEEE is division, which raises
      [ZeroDivisionError] on a zero divisor; arithmetic on [None] raises
      [TypeError].
    - The collaborators ([BinanceAPIManager], the database, the ticker helper)
      are not part of the file under study.  The venue is an interface the
      development is parametric in; the database is a store of rows.
    - Every method is a computation over the store and the venue that returns
      normally or raises, and emits the calls it makes to its collaborators as
      a trace.  The messages to the logger are left out. *)

From Stdlib Require Import Floats ZArith Lia.
From stdpp Require Import gmap strings list.

#[local] Set Warnings "-inexact-float".

(** ** Data model ([models.py]: [Coin], [Pair]; [config.py]) *)

Record Coin : Type := mkCoin {
  symbol : string;
  enabled : bool
}.

Record Pair : Type := mkPair {
  pair_id : nat;
  from_coin : Coin;
  to_coin : Coin;
  ratio : option float
}.

(** The assignment [pair.ratio = r]. *)
Definition set_ratio (pair : Pair) (r : float) : Pair :=
  {| pair_id := pair_id pair; from_coin := from_coin pair;
     to_coin := to_coin pair; ratio := Some r |}.

Record Config : Type := mkConfig {
  BRIDGE : Coin;
  SCOUT_TRANSACTION_FEE : float;
  SCOUT_MULTIPLIER : float
}.

(** The order a successful [sell_alt] / [buy_alt] returns; the code reads
    [float(result["price"])] only. *)
Record Order : Type := mkOrder { order_price : float }.

(** [models.py]: the row [update_values] writes,
    [CoinValue(coin, balance, usd_value, btc_value, datetime=now)]; a price
    that the snapshot lacks is stored as [None]. *)
Record CoinValue : Type := mkCoinValue {
  cv_coin : Coin;
  cv_balance : float;
  cv_usd_price : option float;
  cv_btc_price : option float;
  cv_datetime : Z
}.

(** [coin + "USDT"], [coin + "BTC"]: the ticker symbol of a coin against a
    quote named by its symbol. *)
Definition coin_add_str (c : Coin) (quote : string) : string :=
  symbol c +:+ quote.

(** [coin + self.config.BRIDGE]: the ticker symbol of a coin against the
    bridge. *)
Definition coin_add (c b : Coin) : string := symbol c +:+ symbol b.

(** [Pair.to_coin == coin], [Pair.from_coin == coin]: coins are compared by
    their key, the symbol. *)
Definition coin_eqb (a b : Coin) : bool := bool_decide (symbol a = symbol b).

(** Modelled from the spec: the price snapshot ([all_tickers]) and the helper
    [get_market_ticker_price_from_list] of [utils.py], which are not in the
    file under study.  The snapshot is "an immutable mapping" from a ticker
    symbol to its current price, and the helper returns the price or [None]. *)
Abbreviation Tickers := (gmap string float).

Definition get_market_ticker_price_from_list
    (all_tickers : Tickers) (ticker_symbol : string) : option float :=
  all_tickers !! ticker_symbol.

(** ** Python arithmetic on floats *)

Inductive Exc : Type := ZeroDivisionError | TypeError.

(** [x / y] on floats. *)
Definition py_div (x y : float) : Exc + float :=
  if (y =? 0)%float then inl ZeroDivisionError else inr (x / y)%float.

(** [x - r] where [r] is a nullable column. *)
Definition py_sub_nullable (x : float) (r : option float) : Exc + float :=
  match r with
  | None => inl TypeError
  | Some r => inr (x - r)%float
  end.

(** [v > 0]. *)
Definition positive_score (v : float) : bool := (0 <? v)%float.

(** A finite positive number: above zero and below infinity (so not NaN). *)
Definition finite_pos (x : float) : bool :=
  ((0 <? x) && (x <? infinity))%float.

(** A ratio that is a number and not below zero. *)
Definition nonneg (r : float) : Prop := (0 <=? r)%float = true.

(** ** The venue ([BinanceAPIManager]) *)

(** The calls [AutoTrader] makes on [self.manager].  Each one may depend on
    and change the venue's state. *)
Class BinanceAPIManager : Type := {
  World : Type;
  get_all_market_tickers : World -> Tickers * World;
  get_currency_balance : string -> World -> float * World;
  get_min_notional : string -> string -> World -> float * World;
  sell_alt : Coin -> Coin -> World -> option Order * World;
  buy_alt : Coin -> Coin -> Tickers -> World -> option Order * World
}.

(** ** Traces *)

(** The calls on the collaborators, in the order they are made. *)
Inductive Event : Type :=
| EvTickers (all_tickers : Tickers)
| EvBalance (sym : string) (balance : float)
| EvMinNotional (sym bridge : string) (min_notional : float)
| EvSell (origin : Coin) (result : option Order)
| EvBuy (target : Coin) (result : option Order)
| EvLogScout (pair : Pair) (stored : option float)
    (coin_price opt_price : float).

Definition is_buy (ev : Event) : bool :=
  match ev with EvBuy _ _ => true | _ => false end.

Definition is_sell (ev : Event) : bool :=
  match ev with EvSell _ _ => true | _ => false end.

Definition is_order (ev : Event) : bool := is_sell ev || is_buy ev.

Section AutoTrader.

Context `{manager : BinanceAPIManager}.
Variable config : Config.

(** ** State and computations *)

(** Modelled from the spec: the database of [database.py], which is not in
    the file under study: the rows of [Pair] in query order and "the
    sequence" of tracked coins. *)
Record State : Type := mkState {
  world : World;
  pairs : list Pair;
  coins : list Coin
}.

Definition set_world (s : State) (w : World) : State :=
  {| world := w; pairs := pairs s; coins := coins s |}.

Definition set_pairs (s : State) (ps : list Pair) : State :=
  {| world := world s; pairs := ps; coins := coins s |}.

(** A method returns a value or raises; either way it leaves a state, on a
    raise the state at the point of the raise. *)
Inductive Res (A : Type) : Type :=
| Ok (a : A) (s : State)
| Raise (e : Exc) (s : State).
Arguments Ok {A} a s.
Arguments Raise {A} e s.

Definition final {A} (r : Res A) : State :=
  match r with Ok _ s => s | Raise _ s => s end.

Definition M (A : Type) : Type := State -> list Event * Res A.

Definition ret {A} (a : A) : M A := fun s => ([], Ok a s).

Definition bind {A B} (m : M A) (f : A -> M B) : M B :=
  fun s =>
    match m s with
    | (tr, Ok a s') => let '(tr', r) := f a s' in (tr ++ tr', r)
    | (tr, Raise e s') => (tr, Raise e s')
    end.

Definition lift {A} (x : Exc + A) : M A :=
  fun s => match x with inl e => ([], Raise e s) | inr a => ([], Ok a s) end.

Definition emit (ev : Event) : M unit := fun s => ([ev], Ok tt s).

Notation "'let*' x ':=' m 'in' k" := (bind m (fun x => k))
  (at level 10, x name, m at level 100, k at level 200).

(** *** Calls on [self.manager] *)

Definition manager_get_all_market_tickers : M Tickers :=
  fun s => let '(t, w) := get_all_market_tickers (world s) in
           ([EvTickers t], Ok t (set_world s w)).

Definition manager_get_currency_balance (sym : string) : M float :=
  fun s => let '(b, w) := get_currency_balance sym (world s) in
           ([EvBalance sym b], Ok b (set_world s w)).

Definition manager_get_min_notional (sym bridge : string) : M float :=
  fun s => let '(m, w) := get_min_notional sym bridge (world s) in
           ([EvMinNotional sym bridge m], Ok m (set_world s w)).

Definition manager_sell_alt (origin bridge : Coin) : M (option Order) :=
  fun s => let '(r, w) := sell_alt origin bridge (world s) in
           ([EvSell origin r], Ok r (set_world s w)).

Definition manager_buy_alt (target bridge : Coin) (all_tickers : Tickers)
    : M (option Order) :=
  fun s => let '(r, w) := buy_alt target bridge all_tickers (world s) in
           ([EvBuy target r], Ok r (set_world s w)).

(** *** Calls on [self.db] *)

Definition db_get_coins : M (list Coin) := fun s => ([], Ok (coins s) s).

Definition pairs_from (coin : Coin) (ps : list Pair) : list Pair :=
  filter (fun pair => coin_eqb (from_coin pair) coin = true) ps.

Definition db_get_pairs_from (coin : Coin) : M (list Pair) :=
  fun s => ([], Ok (pairs_from coin (pairs s)) s).

Definition db_log_scout (pair : Pair) (stored : option float)
    (coin_price opt_price : float) : M unit :=
  emit (EvLogScout pair stored coin_price opt_price).

(** [with self.db.db_session() as session: for pair in session.query(Pair)...]:
    the rows are visited in query order; [body] leaves a row the query does
    not select as it is, returns the row as assigned, or raises, which ends
    the loop with the earlier rows assigned. *)
Fixpoint session_loop (body : Pair -> Exc + Pair) (rows : list Pair)
    : list Pair * option Exc :=
  match rows with
  | [] => ([], None)
  | row :: rest =>
      match body row with
      | inl e => (row :: rest, Some e)
      | inr row' =>
          let '(rest', e) := session_loop body rest in (row' :: rest', e)
      end
  end.

Definition db_session (body : Pair -> Exc + Pair) : M unit :=
  fun s =>
    let '(rows, e) := session_loop body (pairs s) in
    match e with
    | None => ([], Ok tt (set_pairs s rows))
    | Some e => ([], Raise e (set_pairs s rows))
    end.

(** ** [AutoTrader] *)

(** The body of the loop of [update_trade_threshold] (lines 47-56). *)
Definition update_row (current_coin : Coin) (current_coin_price : float)
    (all_tickers : Tickers) (pair : Pair) : Exc + Pair :=
  if coin_eqb (to_coin pair) current_coin then
    match get_market_ticker_price_from_list all_tickers
            (coin_add (from_coin pair) (BRIDGE config)) with
    | None => inr pair
    | Some from_coin_price =>
        match py_div from_coin_price current_coin_price with
        | inl e => inl e
        | inr r => inr (set_ratio pair r)
        end
    end
  else inr pair.

Definition update_trade_threshold (current_coin : Coin)
    (current_coin_price : option float) (all_tickers : Tickers) : M unit :=
  match current_coin_price with
  | None => ret tt
  | Some price => db_session (update_row current_coin price all_tickers)
  end.

Definition transaction_through_bridge (pair : Pair) (all_tickers : Tickers)
    : M bool :=
  let* sold := manager_sell_alt (from_coin pair) (BRIDGE config) in
  match sold with
  | None => ret false
  | Some _ =>
      let* result :=
        manager_buy_alt (to_coin pair) (BRIDGE config) all_tickers in
      match result with
      | Some order =>
          let* _ := update_trade_threshold (to_coin pair)
                      (Some (order_price order)) all_tickers in
          ret true
      | None => ret false
      end
  end.

(** The body of the loop of [initialize_trade_thresholds] (lines 66-85). *)
Definition initialize_row (all_tickers : Tickers) (pair : Pair) : Exc + Pair :=
  match ratio pair with
  | Some _ => inr pair
  | None =>
      if negb (enabled (from_coin pair)) || negb (enabled (to_coin pair))
      then inr pair
      else
        match get_market_ticker_price_from_list all_tickers
                (coin_add (from_coin pair) (BRIDGE config)) with
        | None => inr pair
        | Some from_coin_price =>
            match get_market_ticker_price_from_list all_tickers
                    (coin_add (to_coin pair) (BRIDGE config)) with
            | None => inr pair
            | Some to_coin_price =>
                match py_div from_coin_price to_coin_price with
                | inl e => inl e
                | inr r => inr (set_ratio pair r)
                end
            end
        end
  end.

Definition initialize_trade_thresholds : M unit :=
  let* all_tickers := manager_get_all_market_tickers in
  db_session (initialize_row all_tickers).

(** The score of one pair (lines 139-144). *)
Definition score (coin_price optional_coin_price : float)
    (stored : option float) : Exc + float :=
  match py_div coin_price optional_coin_price with
  | inl e => inl e
  | inr coin_opt_coin_ratio =>
      py_sub_nullable
        (coin_opt_coin_ratio
         - SCOUT_TRANSACTION_FEE config * SCOUT_MULTIPLIER config
           * coin_opt_coin_ratio)%float
        stored
  end.

(** The loop of [_get_ratios]; the dictionary is the list of its items in
    insertion order (every row is a key of its own). *)
Fixpoint get_ratios_loop (coin_price : float) (all_tickers : Tickers)
    (rows : list Pair) : M (list (Pair * float)) :=
  match rows with
  | [] => ret []
  | row :: rest =>
      match get_market_ticker_price_from_list all_tickers
              (coin_add (to_coin row) (BRIDGE config)) with
      | None => get_ratios_loop coin_price all_tickers rest
      | Some optional_coin_price =>
          let* _ :=
            db_log_scout row (ratio row) coin_price optional_coin_price in
          let* v := lift (score coin_price optional_coin_price (ratio row)) in
          let* ratio_dict := get_ratios_loop coin_price all_tickers rest in
          ret ((row, v) :: ratio_dict)
      end
  end.

Definition _get_ratios (coin : Coin) (coin_price : float)
    (all_tickers : Tickers) : M (list (Pair * float)) :=
  let* rows := db_get_pairs_from coin in
  get_ratios_loop coin_price all_tickers rows.

(** [max(ratio_dict, key=ratio_dict.get)]: the first key of maximal value. *)
Fixpoint max_from (best : Pair * float) (items : list (Pair * float))
    : Pair * float :=
  match items with
  | [] => best
  | kv :: rest =>
      max_from (if (snd best <? snd kv)%float then kv else best) rest
  end.

(** How the body of a [for] loop ends: it falls through to the next
    iteration ([continue] included) or returns from the method. *)
Inductive Flow : Type := Next | Return.

(** One iteration of the loop of [scout] (lines 94-120). *)
Definition scout_coin (all_tickers : Tickers) (coin : Coin) : M Flow :=
  let* current_coin_balance := manager_get_currency_balance (symbol coin) in
  match get_market_ticker_price_from_list all_tickers
          (coin_add coin (BRIDGE config)) with
  | None => ret Return
  | Some coin_price =>
      let* min_notional :=
        manager_get_min_notional (symbol coin) (symbol (BRIDGE config)) in
      if (coin_price * current_coin_balance <? min_notional)%float
      then ret Next
      else
        let* ratio_dict := _get_ratios coin coin_price all_tickers in
        match filter (fun kv => positive_score (snd kv) = true) ratio_dict with
        | [] => ret Next
        | kv :: rest =>
            let* _ :=
              transaction_through_bridge (fst (max_from kv rest)) all_tickers in
            ret Next
        end
  end.

Fixpoint for_each (body : Coin -> M Flow) (cs : list Coin) : M Flow :=
  match cs with
  | [] => ret Next
  | coin :: rest =>
      let* fl := body coin in
      match fl with
      | Return => ret Return
      | Next => for_each body rest
      end
  end.

(** One iteration of the loop of [bridge_scout] (lines 152-163). *)
Definition bridge_scout_coin (bridge_balance : float) (all_tickers : Tickers)
    (coin : Coin) : M Flow :=
  match get_market_ticker_price_from_list all_tickers
          (coin_add coin (BRIDGE config)) with
  | None => ret Return
  | Some current_coin_price =>
      let* ratio_dict := _get_ratios coin current_coin_price all_tickers in
      if negb (existsb (fun kv => positive_score (snd kv)) ratio_dict) then
        let* min_notional :=
          manager_get_min_notional (symbol coin) (symbol (BRIDGE config)) in
        if (min_notional <? bridge_balance)%float
        then
          let* _ := manager_buy_alt coin (BRIDGE config) all_tickers in
          ret Return
        else ret Return
      else ret Next
  end.

Definition bridge_scout : M unit :=
  let* bridge_balance :=
    manager_get_currency_balance (symbol (BRIDGE config)) in
  let* all_tickers := manager_get_all_market_tickers in
  let* cs := db_get_coins in
  let* _ := for_each (bridge_scout_coin bridge_balance all_tickers) cs in
  ret tt.

Definition scout : M unit :=
  let* all_tickers := manager_get_all_market_tickers in
  let* cs := db_get_coins in
  let* fl := for_each (scout_coin all_tickers) cs in
  match fl with
  | Return => ret tt
  | Next => bridge_scout
  end.

(** Modelled from the spec: the driver that invokes [scout] on a timer is
    not in the file under study; "a single scouting pass executes to
    completion before the next begins".  [passes n] is [n] passes in a row;
    an exception that escapes a pass ends the run. *)
Fixpoint passes (n : nat) : M unit :=
  match n with
  | O => ret tt
  | S n' => let* _ := scout in passes n'
  end.

(** The loop of [update_values] (lines 176-184): the rows it adds to the
    session, each of which is also sent with [send_update]. *)
Fixpoint update_values_loop (all_ticker_values : Tickers) (now : Z)
    (rows : list Coin) : M (list CoinValue) :=
  match rows with
  | [] => ret []
  | coin :: rest =>
      let* balance := manager_get_currency_balance (symbol coin) in
      if (balance =? 0)%float
      then update_values_loop all_ticker_values now rest
      else
        let usd_value :=
          get_market_ticker_price_from_list all_ticker_values
            (coin_add_str coin "USDT") in
        let btc_value :=
          get_market_ticker_price_from_list all_ticker_values
            (coin_add_str coin "BTC") in
        let cv := mkCoinValue coin balance usd_value btc_value now in
        let* added := update_values_loop all_ticker_values now rest in
        ret (cv :: added)
  end.

(** [update_values]; [now] is the answer of [datetime.now()] and [all_coins]
    the answer of [session.query(Coin).all()], the whole table of coins. *)
Definition update_values (now : Z) (all_coins : list Coin)
    : M (list CoinValue) :=
  let* all_ticker_values := manager_get_all_market_tickers in
  update_values_loop all_ticker_values now all_coins.

End AutoTrader.

Arguments Ok {manager A} a s.
Arguments Raise {manager A} e s.

(** ** Specifications *)

Section Specifications.

Context `{manager : BinanceAPIManager}.
Variable config : Config.

Implicit Types (s : State) (all_tickers : Tickers).
Implicit Types (pair : Pair) (coin : Coin).

(** *** Specifications of computations

    [triple I T m Q]: from a state that satisfies [I], every call [m] emits
    satisfies [T], the state [m] ends in (returning or raising) satisfies
    [I], and the value it returns satisfies [Q]. *)
Definition triple {A} (I : State -> Prop) (T : Event -> Prop) (m : M A)
    (Q : A -> Prop) : Prop :=
  forall s,
    I s ->
    Forall T (m s).1 /\ I (final (m s).2) /\
    forall a s', (m s).2 = Ok a s' -> Q a.

(** The counterpart of [pair] is priced in the snapshot. *)
Definition priced all_tickers pair : Prop :=
  is_Some (get_market_ticker_price_from_list all_tickers
             (coin_add (to_coin pair) (BRIDGE config))).

#[global] Instance priced_dec all_tickers pair :
  Decision (priced all_tickers pair).
Proof. unfold priced. apply _. Defined.

(** The call [ev] is made within the snapshot [all_tickers]: it is not the
    fetch of a snapshot, and a comparison it records has the prices of
    [all_tickers] on both sides. *)
Definition reads_from all_tickers (ev : Event) : Prop :=
  match ev with
  | EvTickers _ => False
  | EvLogScout row _ coin_price opt_price =>
      get_market_ticker_price_from_list all_tickers
        (coin_add (from_coin row) (BRIDGE config)) = Some coin_price /\
      get_market_ticker_price_from_list all_tickers
        (coin_add (to_coin row) (BRIDGE config)) = Some opt_price
  | _ => True
  end.

(** The holdings of [coin] are known to be worth less than the minimum
    notional: their value at the snapshot price is below it or, when the
    snapshot has no price for the coin, nothing is held at all. *)
Definition below_minimum all_tickers coin s : Prop :=
  let bal := get_currency_balance (symbol coin) (world s) in
  let minn := get_min_notional (symbol coin) (symbol (BRIDGE config)) bal.2 in
  match get_market_ticker_price_from_list all_tickers
          (coin_add coin (BRIDGE config)) with
  | Some p => (p * bal.1 <? minn.1)%float = true
  | None => (bal.1 =? 0)%float = true /\ (0 <? minn.1)%float = true
  end.

(** The iteration of [scout] on [coin] skips it: it falls through to the
    next coin and leaves the stored ratios as they were. *)
Definition skipped all_tickers coin s : Prop :=
  exists tr s',
    scout_coin config all_tickers coin s = (tr, Ok Next s') /\
    pairs s' = pairs s.

(** Every stored ratio is unset or satisfies [P]. *)
Definition ratios_ok (P : float -> Prop) s : Prop :=
  Forall (fun pair => forall r, ratio pair = Some r -> P r) (pairs s).

(** Every price of the snapshot is a finite positive number. *)
Definition prices_ok all_tickers : Prop :=
  map_Forall (fun _ p => finite_pos p = true) all_tickers.

(** Every snapshot price and every fill price of the venue is a finite
    positive number. *)
Definition venue_ok : Prop :=
  (forall w, prices_ok (get_all_market_tickers w).1) /\
  (forall target bridge all_tickers w order,
      (buy_alt target bridge all_tickers w).1 = Some order ->
      finite_pos (order_price order) = true).

(** The row [n] is the row [o] in identity (id and endpoints), and its ratio
    is set if the ratio of [o] is. *)
Definition same_row (o n : Pair) : Prop :=
  pair_id n = pair_id o /\ from_coin n = from_coin o /\
  to_coin n = to_coin o /\ (is_Some (ratio o) -> is_Some (ratio n)).

(** The rows [new] are the rows [old] in number, order and identity, and no
    ratio that was set in [old] is unset in [new]. *)
Definition same_rows (old new : list Pair) : Prop := Forall2 same_row old new.

(** The scouting record of [pair] for a coin of price [coin_price], if the
    counterpart of [pair] is priced. *)
Definition scout_record all_tickers (coin_price : float) pair : option Event :=
  match get_market_ticker_price_from_list all_tickers
          (coin_add (to_coin pair) (BRIDGE config)) with
  | Some q => Some (EvLogScout pair (ratio pair) coin_price q)
  | None => None
  end.

(** The row [update_values] writes for a coin of balance [balance], if the
    balance is not zero. *)
Definition value_row all_tickers (now : Z) (cb : Coin * float)
    : option CoinValue :=
  if (cb.2 =? 0)%float then None
  else
    Some (mkCoinValue cb.1 cb.2
            (get_market_ticker_price_from_list all_tickers
               (coin_add_str cb.1 "USDT"))
            (get_market_ticker_price_from_list all_tickers
               (coin_add_str cb.1 "BTC"))
            now).

(** A jump over [pair] made within the snapshot [all_tickers]: the buy leg
    is handed [all_tickers], and after a fill the session recalibrates the
    rows at the fill price with the prices of [all_tickers]. *)
Inductive jump_within all_tickers pair s : list Event -> Res bool -> Prop :=
| jump_unsold w :
    sell_alt (from_coin pair) (BRIDGE config) (world s) = (None, w) ->
    jump_within all_tickers pair s
      [EvSell (from_coin pair) None] (Ok false (set_world s w))
| jump_unbought o w w' :
    sell_alt (from_coin pair) (BRIDGE config) (world s) = (Some o, w) ->
    buy_alt (to_coin pair) (BRIDGE config) all_tickers w = (None, w') ->
    jump_within all_tickers pair s
      [EvSell (from_coin pair) (Some o); EvBuy (to_coin pair) None]
      (Ok false (set_world s w'))
| jump_filled o w order w' rows oe :
    sell_alt (from_coin pair) (BRIDGE config) (world s) = (Some o, w) ->
    buy_alt (to_coin pair) (BRIDGE config) all_tickers w
    = (Some order, w') ->
    session_loop
      (update_row config (to_coin pair) (order_price order) all_tickers)
      (pairs s)
    = (rows, oe) ->
    jump_within all_tickers pair s
      [EvSell (from_coin pair) (Some o); EvBuy (to_coin pair) (Some order)]
      (match oe with
       | None => Ok true (set_pairs (set_world s w') rows)
       | Some e => Raise e (set_pairs (set_world s w') rows)
       end).

(** A run of the per-asset loop of [scout] over the coins [cs] made within
    the snapshot [all_tickers]: the price of each coin is looked up in
    [all_tickers] and the loop returns at a coin that has none; the holdings
    are valued at that price for the test against the minimum notional; the
    scores are computed from that price and [all_tickers]; and the jump to
    the best candidate is made within [all_tickers]. *)
Inductive loop_within all_tickers
    : list Coin -> State -> list Event -> Res Flow -> Prop :=
| loop_end s : loop_within all_tickers [] s [] (Ok Next s)
| loop_unpriced coin cs s b w :
    get_currency_balance (symbol coin) (world s) = (b, w) ->
    get_market_ticker_price_from_list all_tickers
      (coin_add coin (BRIDGE config)) = None ->
    loop_within all_tickers (coin :: cs) s
      [EvBalance (symbol coin) b] (Ok Return (set_world s w))
| loop_below coin cs s b w p m w' tr r :
    get_currency_balance (symbol coin) (world s) = (b, w) ->
    get_market_ticker_price_from_list all_tickers
      (coin_add coin (BRIDGE config)) = Some p ->
    get_min_notional (symbol coin) (symbol (BRIDGE config)) w = (m, w') ->
    (p * b <? m)%float = true ->
    loop_within all_tickers cs (set_world s w') tr r ->
    loop_within all_tickers (coin :: cs) s
      (EvBalance (symbol coin) b
         :: EvMinNotional (symbol coin) (symbol (BRIDGE config)) m :: tr) r
| loop_scores_raise coin cs s b w p m w' trs e s1 :
    get_currency_balance (symbol coin) (world s) = (b, w) ->
    get_market_ticker_price_from_list all_tickers
      (coin_add coin (BRIDGE config)) = Some p ->
    get_min_notional (symbol coin) (symbol (BRIDGE config)) w = (m, w') ->
    (p * b <? m)%float = false ->
    _get_ratios config coin p all_tickers (set_world s w')
    = (trs, Raise e s1) ->
    loop_within all_tickers (coin :: cs) s
      (EvBalance (symbol coin) b
         :: EvMinNotional (symbol coin) (symbol (BRIDGE config)) m :: trs)
      (Raise e s1)
| loop_no_candidate coin cs s b w p m w' trs d s1 tr r :
    get_currency_balance (symbol coin) (world s) = (b, w) ->
    get_market_ticker_price_from_list all_tickers
      (coin_add coin (BRIDGE config)) = Some p ->
    get_min_notional (symbol coin) (symbol (BRIDGE config)) w = (m, w') ->
    (p * b <? m)%float = false ->
    _get_ratios config coin p all_tickers (set_world s w')
    = (trs, Ok d s1) ->
    (forall kv, kv ∈ d -> (0 <? kv.2)%float = false) ->
    loop_within all_tickers cs s1 tr r ->
    loop_within all_tickers (coin :: cs) s
      (EvBalance (symbol coin) b
         :: EvMinNotional (symbol coin) (symbol (BRIDGE config)) m
         :: trs ++ tr) r
| loop_jump coin cs s b w p m w' trs d s1 kv rest trj done s2 tr r :
    get_currency_balance (symbol coin) (world s) = (b, w) ->
    get_market_ticker_price_from_list all_tickers
      (coin_add coin (BRIDGE config)) = Some p ->
    get_min_notional (symbol coin) (symbol (BRIDGE config)) w = (m, w') ->
    (p * b <? m)%float = false ->
    _get_ratios config coin p all_tickers (set_world s w')
    = (trs, Ok d s1) ->
    filter (fun kv : Pair * float => (0 <? kv.2)%float = true) d
    = kv :: rest ->
    jump_within all_tickers (max_from kv rest).1 s1 trj (Ok done s2) ->
    loop_within all_tickers cs s2 tr r ->
    loop_within all_tickers (coin :: cs) s
      (EvBalance (symbol coin) b
         :: EvMinNotional (symbol coin) (symbol (BRIDGE config)) m
         :: trs ++ trj ++ tr) r
| loop_jump_raise coin cs s b w p m w' trs d s1 kv rest trj e s2 :
    get_currency_balance (symbol coin) (world s) = (b, w) ->
    get_market_ticker_price_from_list all_tickers
      (coin_add coin (BRIDGE config)) = Some p ->
    get_min_notional (symbol coin) (symbol (BRIDGE config)) w = (m, w') ->
    (p * b <? m)%float = false ->
    _get_ratios config coin p all_tickers (set_world s w')
    = (trs, Ok d s1) ->
    filter (fun kv : Pair * float => (0 <? kv.2)%float = true) d
    = kv :: rest ->
    jump_within all_tickers (max_from kv rest).1 s1 trj (Raise e s2) ->
    loop_within all_tickers (coin :: cs) s
      (EvBalance (symbol coin) b
         :: EvMinNotional (symbol coin) (symbol (BRIDGE config)) m
         :: trs ++ trj)
      (Raise e s2).

(** A run of the loop of [bridge_scout] over the coins [cs], with the bridge
    balance [bridge_balance], made within the snapshot [all_tickers]: the
    price of each coin is looked up in [all_tickers] and the loop returns at
    a coin that has none; the scores are computed from that price and
    [all_tickers]; and the buy is handed [all_tickers]. *)
Inductive check_within (bridge_balance : float) all_tickers
    : list Coin -> State -> list Event -> Res Flow -> Prop :=
| check_end s : check_within bridge_balance all_tickers [] s [] (Ok Next s)
| check_unpriced coin cs s :
    get_market_ticker_price_from_list all_tickers
      (coin_add coin (BRIDGE config)) = None ->
    check_within bridge_balance all_tickers (coin :: cs) s [] (Ok Return s)
| check_scores_raise coin cs s p trs e s1 :
    get_market_ticker_price_from_list all_tickers
      (coin_add coin (BRIDGE config)) = Some p ->
    _get_ratios config coin p all_tickers s = (trs, Raise e s1) ->
    check_within bridge_balance all_tickers (coin :: cs) s trs (Raise e s1)
| check_pass coin cs s p trs d s1 kv tr r :
    get_market_ticker_price_from_list all_tickers
      (coin_add coin (BRIDGE config)) = Some p ->
    _get_ratios config coin p all_tickers s = (trs, Ok d s1) ->
    kv ∈ d -> (0 <? kv.2)%float = true ->
    check_within bridge_balance all_tickers cs s1 tr r ->
    check_within bridge_balance all_tickers (coin :: cs) s (trs ++ tr) r
| check_buy coin cs s p trs d s1 m w res w' :
    get_market_ticker_price_from_list all_tickers
      (coin_add coin (BRIDGE config)) = Some p ->
    _get_ratios config coin p all_tickers s = (trs, Ok d s1) ->
    (forall kv, kv ∈ d -> (0 <? kv.2)%float = false) ->
    get_min_notional (symbol coin) (symbol (BRIDGE config)) (world s1)
    = (m, w) ->
    (m <? bridge_balance)%float = true ->
    buy_alt coin (BRIDGE config) all_tickers w = (res, w') ->
    check_within bridge_balance all_tickers (coin :: cs) s
      (trs ++ [EvMinNotional (symbol coin) (symbol (BRIDGE config)) m;
               EvBuy coin res])
      (Ok Return (set_world s1 w'))
| check_no_buy coin cs s p trs d s1 m w :
    get_market_ticker_price_from_list all_tickers
      (coin_add coin (BRIDGE config)) = Some p ->
    _get_ratios config coin p all_tickers s = (trs, Ok d s1) ->
    (forall kv, kv ∈ d -> (0 <? kv.2)%float = false) ->
    get_min_notional (symbol coin) (symbol (BRIDGE config)) (world s1)
    = (m, w) ->
    (m <? bridge_balance)%float = false ->
    check_within bridge_balance all_tickers (coin :: cs) s
      (trs ++ [EvMinNotional (symbol coin) (symbol (BRIDGE config)) m])
      (Ok Return (set_world s1 w)).

(** The bridge check passes over [coin]: the coin is priced in the snapshot,
    its scores are computed, leaving the records [tr], and one of them is
    strictly positive. *)
Definition has_positive_score all_tickers coin s (tr : list Event) : Prop :=
  exists p d,
    get_market_ticker_price_from_list all_tickers
      (coin_add coin (BRIDGE config)) = Some p /\
    _get_ratios config coin p all_tickers s = (tr, Ok d s) /\
    exists kv, kv ∈ d /\ (0 <? kv.2)%float = true.

(** [coin] is priced in the snapshot, its scores are computed, and none of
    them is strictly positive. *)
Definition no_positive_score all_tickers coin s : Prop :=
  exists p tr d s',
    get_market_ticker_price_from_list all_tickers
      (coin_add coin (BRIDGE config)) = Some p /\
    _get_ratios config coin p all_tickers s = (tr, Ok d s') /\
    forall kv, kv ∈ d -> (0 <? kv.2)%float = false.

(** [r] is the first maximum of the scores [xs], as the interpreter's [max]
    finds it by one pass with [>]: [r] stands at some position of [xs]; every
    item before it is strictly smaller (or is not a number, and was passed
    over); no item after it is strictly greater; and when the first item is
    not a number nothing replaces it. *)
Definition first_maximum (xs : list (Pair * float)) (r : Pair * float)
    : Prop :=
  exists pre post,
    xs = pre ++ r :: post /\
    (forall kv,
        kv ∈ pre ->
        (kv.2 <? r.2)%float = true \/ (kv.2 =? kv.2)%float = false) /\
    (forall kv, kv ∈ post -> (r.2 <? kv.2)%float = false) /\
    (forall kv,
        head xs = Some kv -> (kv.2 =? kv.2)%float = false -> pre = []).

End Specifications.

(** ** A scripted venue *)

(** A venue that answers from a script: the [n]-th call of
    [get_all_market_tickers] serves [feed n]; balances, minimum notionals and
    the outcome of orders are fixed.  Its state is the number of snapshots
    served so far. *)
Record Script : Type := mkScript {
  feed : nat -> Tickers;
  balance_of : string -> float;
  min_notional_of : string -> float;
  sell_result : option Order;
  buy_result : option Order
}.

Definition scripted (sc : Script) : BinanceAPIManager := {|
  World := nat;
  get_all_market_tickers n := (feed sc n, S n);
  get_currency_balance sym n := (balance_of sc sym, n);
  get_min_notional sym _ n := (min_notional_of sc sym, n);
  sell_alt _ _ n := (sell_result sc, n);
  buy_alt _ _ _ n := (buy_result sc, n)
|}.

Module Example.

Definition USDT : Coin := mkCoin "USDT" true.
Definition A : Coin := mkCoin "A" true.
Definition B : Coin := mkCoin "B" true.

Definition config : Config :=
  {| BRIDGE := USDT; SCOUT_TRANSACTION_FEE := 0.001; SCOUT_MULTIPLIER := 1 |}.

(** A disabled coin. *)
Definition D : Coin := mkCoin "D" false.

(** Snapshot prices {A/Bridge = 10, B/Bridge = 5} (and D/Bridge = 2). *)
Definition tickers : Tickers :=
  {[ "AUSDT" := 10%float; "BUSDT" := 5%float; "DUSDT" := 2%float ]}.

(** Stored Ratio(A -> B) = 1.5. *)
Definition pairAB : Pair := mkPair 1 A B (Some 1.5%float).

Definition quiet : Script :=
  {| feed := fun _ => tickers;
     balance_of := fun _ => 0%float;
     min_notional_of := fun _ => 10%float;
     sell_result := None;
     buy_result := None |}.

Definition store : @State (scripted quiet) :=
  @mkState (scripted quiet) 0%nat [pairAB] [A; B].

(** A third coin, not priced in the snapshot. *)
Definition C : Coin := mkCoin "C" true.
Definition pairAC : Pair := mkPair 2 A C (Some 2%float).
Definition pairBA : Pair := mkPair 3 B A (Some 0.5%float).
Definition pairCB : Pair := mkPair 4 C B (Some 3%float).

(** Rows before initialization: A -> B can be initialized, A -> C has no
    price for C, B -> A is set already, A -> D has a disabled endpoint. *)
Definition fresh : @State (scripted quiet) :=
  @mkState (scripted quiet) 0%nat
    [mkPair 1 A B None; mkPair 2 A C None; pairBA; mkPair 5 A D None]
    [A; B; C].

(** A venue where both legs of a jump are filled, the buy at price 4. *)
Definition eager : Script :=
  {| feed := fun _ => tickers;
     balance_of := fun _ => 100%float;
     min_notional_of := fun _ => 10%float;
     sell_result := Some (mkOrder 10%float);
     buy_result := Some (mkOrder 4%float) |}.

Definition store4 : @State (scripted eager) :=
  @mkState (scripted eager) 0%nat [pairAB; pairAC; pairBA; pairCB] [A; B; C].

Definition store3 : @State (scripted quiet) :=
  @mkState (scripted quiet) 0%nat [pairAB; pairAC; pairBA] [A; B; C].

(** Rows where the only pair from B leads to C, which is not priced. *)
Definition pairBC : Pair := mkPair 6 B C (Some 1%float).

Definition store5 : @State (scripted quiet) :=
  @mkState (scripted quiet) 0%nat [pairBC; pairAB] [B; A].

(** A venue whose prices move: the first snapshot is [tickers], every later
    one has A at 20.  Nothing is held. *)
Definition tickers_later : Tickers :=
  {[ "AUSDT" := 20%float; "BUSDT" := 5%float ]}.

Definition drifting : Script :=
  {| feed := fun n => match n with O => tickers | S _ => tickers_later end;
     balance_of := fun _ => 0%float;
     min_notional_of := fun _ => 10%float;
     sell_result := None;
     buy_result := None |}.

Definition store2 : @State (scripted drifting) :=
  @mkState (scripted drifting) 0%nat [pairAB; pairBA] [A; B].

(** A venue with finite positive prices far apart: A at 1e-200 and B at
    1e200. *)
Definition tickers_apart : Tickers :=
  {[ "AUSDT" := 1e-200%float; "BUSDT" := 1e200%float ]}.

Definition extreme : Script :=
  {| feed := fun _ => tickers_apart;
     balance_of := fun _ => 0%float;
     min_notional_of := fun _ => 10%float;
     sell_result := None;
     buy_result := None |}.

Definition unset : @State (scripted extreme) :=
  @mkState (scripted extreme) 0%nat
    [mkPair 1 A B None; mkPair 3 B A None] [A; B].

(** Rows before initialization, all with enabled endpoints. *)
Definition fresh_enabled : @State (scripted quiet) :=
  @mkState (scripted quiet) 0%nat
    [mkPair 1 A B None; mkPair 2 A C None; mkPair 3 B A None] [A; B; C].

(** The venue where orders are filled, with B as the only tracked coin. *)
Definition store1 : @State (scripted eager) :=
  @mkState (scripted eager) 0%nat [pairBA] [B].

End Example.

(** ** Facts on binary64 arithmetic

    The comparisons and the division of the interpreter, from the
    specification of the primitive floats. *)

Module Binary64.

(** [<] is asymmetric (and false on NaN). *)
Lemma ltb_asym (x y : float) :
  (x <? y)%float = true -> (y <? x)%float = false.
Proof.
  rewrite !FloatAxioms.ltb_spec. unfold SFltb.
  destruct (Prim2SF x) as [[]|[]| |[] mx ex],
           (Prim2SF y) as [[]|[]| |[] my ey];
    simpl; try discriminate; try reflexivity;
    rewrite (Z.compare_antisym ex ey);
    change (Pos.compare_cont Eq my mx)
      with (Pos.compare_cont (CompOpp Eq) my mx);
    rewrite <- (Pos.compare_cont_antisym mx my Eq);
    destruct (ex ?= ey)%Z, (Pos.compare_cont Eq mx my); simpl;
    try discriminate; reflexivity.
Qed.

Lemma finite_pos_spec (x : float) :
  finite_pos x = true -> exists m e, Prim2SF x = S754_finite false m e.
Proof.
  unfold finite_pos. rewrite andb_true_iff, !FloatAxioms.ltb_spec.
  change (Prim2SF 0) with (S754_zero false).
  change (Prim2SF infinity) with (S754_infinity false).
  unfold SFltb.
  destruct (Prim2SF x) as [[]|[]| |[] mx ex]; simpl; intros [H1 H2];
    try discriminate.
  eauto.
Qed.

Lemma finite_pos_nonzero (x : float) :
  finite_pos x = true -> (x =? 0)%float = false.
Proof.
  intros (m & e & H)%finite_pos_spec.
  rewrite FloatAxioms.eqb_spec, H. reflexivity.
Qed.

Lemma shr_1_nonneg mrs : (0 <= shr_m mrs -> 0 <= shr_m (shr_1 mrs))%Z.
Proof.
  destruct mrs as [[|[p|p|]|p] r s]; simpl; lia.
Qed.

Lemma iter_shr_1_nonneg n mrs :
  (0 <= shr_m mrs -> 0 <= shr_m (SpecFloat.iter_pos shr_1 n mrs))%Z.
Proof.
  revert mrs. induction n as [n IH|n IH|]; simpl; intros mrs H.
  - apply IH, IH, shr_1_nonneg, H.
  - apply IH, IH, H.
  - apply shr_1_nonneg, H.
Qed.

Lemma shr_fexp_nonneg m e l :
  (0 <= m -> 0 <= shr_m (fst (shr_fexp prec emax m e l)))%Z.
Proof.
  intros H. unfold shr_fexp, shr.
  assert (0 <= shr_m (shr_record_of_loc m l))%Z as H0
    by (destruct l as [|[]]; exact H).
  destruct (_ - e)%Z; simpl; try exact H0.
  apply iter_shr_1_nonneg, H0.
Qed.

Lemma round_nearest_even_nonneg m l :
  (0 <= m -> 0 <= round_nearest_even m l)%Z.
Proof.
  intros H. destruct l as [|[]]; simpl; try lia.
  destruct (Z.even m); lia.
Qed.

Lemma binary_round_aux_positive m e l :
  (0 <= m)%Z ->
  let r := binary_round_aux prec emax false m e l in
  r = S754_zero false \/ r = S754_infinity false \/
  exists m' e', r = S754_finite false m' e'.
Proof.
  intros H. unfold binary_round_aux.
  pose proof (shr_fexp_nonneg m e l H) as H1.
  destruct (shr_fexp prec emax m e l) as [mrs' e'] eqn:E1. simpl in H1.
  pose proof (shr_fexp_nonneg _ e' loc_Exact
                (round_nearest_even_nonneg _ (loc_of_shr_record mrs') H1)) as H2.
  destruct (shr_fexp prec emax (round_nearest_even _ _) e' loc_Exact)
    as [mrs'' e''] eqn:E2.
  simpl in H2. simpl.
  destruct (shr_m mrs'') as [|p|p]; [auto| |lia].
  destruct (e'' <=? emax - prec)%Z; eauto.
Qed.

Lemma div_core_nonneg mx ex my ey :
  (0 <= fst (fst (SFdiv_core_binary prec emax (Z.pos mx) ex (Z.pos my) ey)))%Z.
Proof.
  unfold SFdiv_core_binary.
  set (s := (_ - _ - _)%Z).
  set (m' := match s with Z0 => _ | Z.pos _ => _ | Z.neg _ => _ end).
  assert (0 <= m')%Z as Hm.
  { subst m'. destruct s; try lia. apply Z.shiftl_nonneg. lia. }
  pose proof (Z.div_pos m' (Z.pos my) Hm ltac:(lia)) as Hq.
  unfold Z.div in Hq.
  destruct (Z.div_eucl m' (Z.pos my)) as [q r]. exact Hq.
Qed.

(** The quotient of two finite positive numbers is a number, and it is not
    below zero: rounding may take it to 0 or to infinity, never to NaN or
    below 0. *)
Lemma div_finite_pos (x y : float) :
  finite_pos x = true -> finite_pos y = true -> (0 <=? x / y)%float = true.
Proof.
  intros (mx & ex & Hx)%finite_pos_spec (my & ey & Hy)%finite_pos_spec.
  rewrite FloatAxioms.leb_spec, FloatAxioms.div_spec, Hx, Hy.
  change (Prim2SF 0) with (S754_zero false).
  unfold SF64div, SFdiv.
  pose proof (div_core_nonneg mx ex my ey) as Hq.
  destruct (SFdiv_core_binary prec emax (Z.pos mx) ex (Z.pos my) ey)
    as [[mz ez] lz].
  simpl in Hq. simpl xorb.
  destruct (binary_round_aux_positive mz ez lz Hq)
    as [-> | [-> | (m' & e' & ->)]];
    reflexivity.
Qed.

End Binary64.

(** * Properties of [AutoTrader] *)

Section Properties.

Context `{manager : BinanceAPIManager}.
Variable config : Config.

Notation "'let*' x ':=' m 'in' k" := (bind m (fun x => k))
  (at level 10, x name, m at level 100, k at level 200).

Implicit Types (s : State) (tr : list Event) (all_tickers : Tickers).
Implicit Types (pair row : Pair) (coin : Coin).

Lemma bind_unfold {A B} (m : M A) (f : A -> M B) s :
  bind m f s =
  match m s with
  | (tr, Ok a s') => let '(tr', r) := f a s' in (tr ++ tr', r)
  | (tr, Raise e s') => (tr, Raise e s')
  end.
Proof. reflexivity. Qed.

Section Triples.

Variable I : State -> Prop.
Variable T : Event -> Prop.
Hypothesis I_world : forall s w, I s -> I (set_world s w).

Lemma triple_ret {A} (a : A) (Q : A -> Prop) : Q a -> triple I T (ret a) Q.
Proof.
  intros HQ s Hs. simpl. split; [constructor|]. split; [exact Hs|].
  intros a' s' [= <- <-]. exact HQ.
Qed.

Lemma triple_bind {A B} (m : M A) (f : A -> M B) (Q : A -> Prop)
    (R : B -> Prop) :
  triple I T m Q -> (forall a, Q a -> triple I T (f a) R) ->
  triple I T (bind m f) R.
Proof.
  intros Hm Hf s Hs. rewrite bind_unfold.
  destruct (Hm s Hs) as (Htr & HI & HQ).
  destruct (m s) as [tr [a s1|e s1]]; simpl in *.
  - destruct (Hf a (HQ a s1 eq_refl) s1 HI) as (Htr' & HI' & HR).
    destruct (f a s1) as [tr' r]. simpl in *.
    split; [apply Forall_app; auto|]. auto.
  - split; [exact Htr|]. split; [exact HI|]. discriminate.
Qed.

Lemma triple_lift {A} (x : Exc + A) (Q : A -> Prop) :
  (forall a, x = inr a -> Q a) -> triple I T (lift x) Q.
Proof.
  intros HQ s Hs. unfold lift. destruct x as [e|a]; simpl.
  - split; [constructor|]. split; [exact Hs|]. discriminate.
  - split; [constructor|]. split; [exact Hs|].
    intros a' s' [= <- <-]. auto.
Qed.

Lemma triple_emit ev : T ev -> triple I T (emit ev) (fun _ => True).
Proof.
  intros HT s Hs. simpl. split; [constructor; [exact HT|constructor]|].
  split; [exact Hs|]. auto.
Qed.

Lemma triple_balance sym :
  (forall b, T (EvBalance sym b)) ->
  triple I T (manager_get_currency_balance sym) (fun _ => True).
Proof.
  intros HT s Hs. unfold manager_get_currency_balance.
  destruct (get_currency_balance sym (world s)) as [b w]. simpl.
  split; [constructor; [apply HT|constructor]|].
  split; [apply I_world, Hs|]. auto.
Qed.

Lemma triple_min_notional sym bridge :
  (forall m, T (EvMinNotional sym bridge m)) ->
  triple I T (manager_get_min_notional sym bridge) (fun _ => True).
Proof.
  intros HT s Hs. unfold manager_get_min_notional.
  destruct (get_min_notional sym bridge (world s)) as [m w]. simpl.
  split; [constructor; [apply HT|constructor]|].
  split; [apply I_world, Hs|]. auto.
Qed.

Lemma triple_sell origin bridge :
  (forall r, T (EvSell origin r)) ->
  triple I T (manager_sell_alt origin bridge) (fun _ => True).
Proof.
  intros HT s Hs. unfold manager_sell_alt.
  destruct (sell_alt origin bridge (world s)) as [r w]. simpl.
  split; [constructor; [apply HT|constructor]|].
  split; [apply I_world, Hs|]. auto.
Qed.

Lemma triple_buy target bridge all_tickers (Q : option Order -> Prop) :
  (forall r, T (EvBuy target r)) ->
  (forall w, Q (buy_alt target bridge all_tickers w).1) ->
  triple I T (manager_buy_alt target bridge all_tickers) Q.
Proof.
  intros HT HQ s Hs. unfold manager_buy_alt. specialize (HQ (world s)).
  destruct (buy_alt target bridge all_tickers (world s)) as [r w].
  simpl in *.
  split; [constructor; [apply HT|constructor]|].
  split; [apply I_world, Hs|]. intros a s' [= <- <-]. exact HQ.
Qed.

Lemma triple_session body :
  (forall s, I s -> I (set_pairs s (session_loop body (pairs s)).1)) ->
  triple I T (db_session body) (fun _ => True).
Proof.
  intros Hb s Hs. unfold db_session. specialize (Hb s Hs).
  destruct (session_loop body (pairs s)) as [rows [e|]]; simpl in *;
    (split; [constructor|]); (split; [exact Hb|]); auto.
Qed.

Lemma triple_for_each (body : Coin -> M Flow) cs :
  (forall coin, triple I T (body coin) (fun _ => True)) ->
  triple I T (for_each body cs) (fun _ => True).
Proof.
  intros Hb. induction cs as [|coin rest IH]; simpl.
  - apply triple_ret. exact Logic.I.
  - eapply triple_bind; [apply Hb|]. intros [] _.
    + exact IH.
    + apply triple_ret. exact Logic.I.
Qed.

End Triples.

(** *** [_get_ratios] *)

Lemma get_ratios_loop_readonly coin_price all_tickers rows s :
  final (snd (get_ratios_loop config coin_price all_tickers rows s)) = s.
Proof.
  induction rows as [|row rest IH]; simpl; [reflexivity|].
  destruct (get_market_ticker_price_from_list _ _) as [q|]; [|exact IH].
  rewrite bind_unfold. simpl. rewrite bind_unfold.
  destruct (score _ _ _ _) as [e|v]; simpl; [reflexivity|].
  rewrite bind_unfold.
  destruct (get_ratios_loop _ _ _ rest s) as [tr [d s'|e s']]; simpl in *;
    exact IH.
Qed.

Lemma get_ratios_loop_items coin_price all_tickers rows s tr d s' :
  get_ratios_loop config coin_price all_tickers rows s = (tr, Ok d s') ->
  d.*1 = filter (priced config all_tickers) rows /\
  Forall (fun kv =>
            exists q,
              get_market_ticker_price_from_list all_tickers
                (coin_add (to_coin kv.1) (BRIDGE config)) = Some q /\
              score config coin_price q (ratio kv.1) = inr kv.2) d.
Proof.
  revert tr d. induction rows as [|row rest IH]; simpl; intros tr d H.
  - injection H as <- <- <-. split; [reflexivity|constructor].
  - rewrite filter_cons.
    destruct (get_market_ticker_price_from_list _ _) as [q|] eqn:Hq.
    + rewrite decide_True by (unfold priced; rewrite Hq; eauto).
      rewrite bind_unfold in H. simpl in H. rewrite bind_unfold in H.
      destruct (score _ _ _ _) as [e|v] eqn:Hv; simpl in H; [discriminate|].
      rewrite bind_unfold in H.
      destruct (get_ratios_loop _ _ _ rest s) as [tr' [d' s''|e s'']] eqn:Hl;
        simpl in H; [|discriminate].
      injection H as <- <- <-.
      destruct (IH _ _ eq_refl) as [IH1 IH2].
      split; [simpl; f_equal; exact IH1|].
      constructor; [|exact IH2]. exists q. simpl. auto.
    + rewrite decide_False by (unfold priced; rewrite Hq; intros [? [=]]).
      apply IH in H. exact H.
Qed.

Lemma score_inr coin_price q stored v :
  score config coin_price q stored = inr v ->
  (q =? 0)%float = false /\
  exists r, stored = Some r /\
    v = (coin_price / q
         - SCOUT_TRANSACTION_FEE config * SCOUT_MULTIPLIER config
           * (coin_price / q)
         - r)%float.
Proof.
  unfold score, py_div. destruct (q =? 0)%float; [discriminate|].
  destruct stored as [r|]; simpl; [|discriminate].
  intros [= <-]. eauto.
Qed.

Lemma get_ratios_loop_returns coin_price all_tickers rows s :
  (forall pair q,
      pair ∈ rows ->
      get_market_ticker_price_from_list all_tickers
        (coin_add (to_coin pair) (BRIDGE config)) = Some q ->
      (q =? 0)%float = false /\ is_Some (ratio pair)) ->
  exists tr d,
    get_ratios_loop config coin_price all_tickers rows s = (tr, Ok d s).
Proof.
  induction rows as [|row rest IH]; simpl; intros H.
  - eexists _, _. reflexivity.
  - destruct IH as (tr & d & IH).
    { intros pair q Hin. apply H. right. exact Hin. }
    destruct (get_market_ticker_price_from_list _ _) as [q|] eqn:Hq.
    + destruct (H row q) as [Hz [r Hr]]; [left|exact Hq|].
      rewrite bind_unfold. simpl. rewrite bind_unfold.
      unfold score, py_div. rewrite Hz, Hr. simpl.
      rewrite bind_unfold, IH. simpl. eexists _, _. reflexivity.
    + eauto.
Qed.

(** C1 -- the score of [_get_ratios].  For a coin of price [p], whenever
    [_get_ratios] returns, it has left the store as it was, its keys are the
    pairs from the coin whose counterpart is priced, and the value at a pair
    of counterpart price [q] and stored ratio [r] is
    [(p/q) - fee*multiplier*(p/q) - r]; it does return when every priced
    counterpart has a non-zero price and a stored ratio.  With p = 10, q = 5,
    r = 1.5, fee = 0.001 and multiplier = 1 the score is the float 0.498. *)
Theorem get_ratios_score_formula :
  (forall coin (p : float) all_tickers s,
      ((forall pair q,
           pair ∈ pairs_from coin (pairs s) ->
           get_market_ticker_price_from_list all_tickers
             (coin_add (to_coin pair) (BRIDGE config)) = Some q ->
           (q =? 0)%float = false /\ is_Some (ratio pair)) ->
       exists tr d, _get_ratios config coin p all_tickers s = (tr, Ok d s)) /\
      (forall tr d s',
          _get_ratios config coin p all_tickers s = (tr, Ok d s') ->
          s' = s /\
          d.*1 = filter (priced config all_tickers) (pairs_from coin (pairs s)) /\
          forall pair v,
            (pair, v) ∈ d ->
            exists q r,
              get_market_ticker_price_from_list all_tickers
                (coin_add (to_coin pair) (BRIDGE config)) = Some q /\
              ratio pair = Some r /\
              v = (p / q
                   - SCOUT_TRANSACTION_FEE config * SCOUT_MULTIPLIER config
                     * (p / q)
                   - r)%float)) /\
  snd (@_get_ratios (scripted Example.quiet) Example.config Example.A 10%float
         Example.tickers Example.store)
  = Ok [(Example.pairAB, 0.498%float)] Example.store.
Proof.
  split; [|vm_compute; reflexivity].
  intros coin p all_tickers s. unfold _get_ratios. split.
  - intros H. rewrite bind_unfold. simpl.
    destruct (get_ratios_loop_returns p all_tickers _ s H) as (tr & d & ->).
    eauto.
  - intros tr d s' H. rewrite bind_unfold in H. simpl in H.
    destruct (get_ratios_loop _ _ _ _ s) as [tr' r] eqn:Hl.
    injection H as <- ->.
    pose proof (get_ratios_loop_readonly p all_tickers
                  (pairs_from coin (pairs s)) s) as Hs.
    rewrite Hl in Hs. simpl in Hs.
    destruct (get_ratios_loop_items _ _ _ _ _ _ _ Hl) as [Hk Hv].
    split; [exact Hs|]. split; [exact Hk|].
    intros pair v Hin. rewrite Forall_forall in Hv.
    destruct (Hv _ Hin) as (q & Hq & Hsc). simpl in Hq, Hsc.
    destruct (score_inr _ _ _ _ Hsc) as (_ & r & Hr & ->).
    eauto.
Qed.

(** C7 -- [_get_ratios] skips unpriced counterparts.  The mapping it returns
    has a key for each pair from the coin whose counterpart is priced in the
    snapshot, and for no other: no key has a counterpart price that is
    absent. *)
Theorem get_ratios_skips_unpriced coin (p : float) all_tickers s tr d s' :
  _get_ratios config coin p all_tickers s = (tr, Ok d s') ->
  d.*1 = filter (priced config all_tickers) (pairs_from coin (pairs s)) /\
  forall pair v,
    (pair, v) ∈ d ->
    get_market_ticker_price_from_list all_tickers
      (coin_add (to_coin pair) (BRIDGE config)) <> None.
Proof.
  intros H. unfold _get_ratios in H. rewrite bind_unfold in H. simpl in H.
  destruct (get_ratios_loop _ _ _ _ s) as [tr' r] eqn:Hl.
  injection H as <- ->.
  destruct (get_ratios_loop_items _ _ _ _ _ _ _ Hl) as [Hk Hv].
  split; [exact Hk|].
  intros pair v Hin. rewrite Forall_forall in Hv.
  destruct (Hv _ Hin) as (q & Hq & _). simpl in Hq. congruence.
Qed.

(** *** Sessions *)

Lemma session_loop_rows body rows rows' :
  session_loop body rows = (rows', None) ->
  Forall2 (fun old new => body old = inr new) rows rows'.
Proof.
  revert rows'. induction rows as [|row rest IH]; simpl; intros rows' H.
  - injection H as <-. constructor.
  - destruct (body row) as [e|row'] eqn:Hb; [discriminate|].
    destruct (session_loop body rest) as [rest' e].
    injection H as <- ->. constructor; auto.
Qed.

Lemma update_row_inr current_coin (f : float) all_tickers old new :
  update_row config current_coin f all_tickers old = inr new ->
  (symbol (to_coin old) = symbol current_coin ->
   forall p,
     get_market_ticker_price_from_list all_tickers
       (coin_add (from_coin old) (BRIDGE config)) = Some p ->
     new = set_ratio old (p / f)) /\
  (symbol (to_coin old) = symbol current_coin ->
   get_market_ticker_price_from_list all_tickers
     (coin_add (from_coin old) (BRIDGE config)) = None ->
   new = old) /\
  (symbol (to_coin old) <> symbol current_coin -> new = old).
Proof.
  unfold update_row, coin_eqb, py_div. case_bool_decide as Hto.
  - destruct (get_market_ticker_price_from_list _ _) as [p|].
    + destruct (f =? 0)%float; [discriminate|]. intros [= <-].
      split; [|split].
      * intros _ p' [= <-]. reflexivity.
      * discriminate.
      * tauto.
    + intros [= <-]. split; [|split]; [discriminate|reflexivity|tauto].
  - intros [= <-]. split; [|split]; [tauto|tauto|reflexivity].
Qed.

Lemma session_loop_idempotent body rows rows' :
  (forall row row', body row = inr row' -> body row' = inr row') ->
  session_loop body rows = (rows', None) ->
  session_loop body rows' = (rows', None).
Proof.
  intros Hb H. apply session_loop_rows in H.
  induction H as [|old new rest rest' Hrow _ IH]; simpl; [reflexivity|].
  rewrite (Hb _ _ Hrow), IH. reflexivity.
Qed.

Lemma initialize_row_inr all_tickers old new :
  initialize_row config all_tickers old = inr new ->
  (ratio old = None ->
   enabled (from_coin old) = true -> enabled (to_coin old) = true ->
   forall p q,
     get_market_ticker_price_from_list all_tickers
       (coin_add (from_coin old) (BRIDGE config)) = Some p ->
     get_market_ticker_price_from_list all_tickers
       (coin_add (to_coin old) (BRIDGE config)) = Some q ->
     new = set_ratio old (p / q)) /\
  (ratio old <> None \/
   enabled (from_coin old) = false \/ enabled (to_coin old) = false \/
   get_market_ticker_price_from_list all_tickers
     (coin_add (from_coin old) (BRIDGE config)) = None \/
   get_market_ticker_price_from_list all_tickers
     (coin_add (to_coin old) (BRIDGE config)) = None ->
   new = old).
Proof.
  unfold initialize_row, py_div.
  destruct (ratio old) as [r|]; [intros [= <-]; split; [discriminate|auto]|].
  destruct (enabled (from_coin old)); simpl;
    [|intros [= <-]; split; [discriminate|auto]].
  destruct (enabled (to_coin old)); simpl;
    [|intros [= <-]; split; [discriminate|auto]].
  destruct (get_market_ticker_price_from_list _ (coin_add (from_coin old) _))
    as [p|]; [|intros [= <-]; split; [discriminate|auto]].
  destruct (get_market_ticker_price_from_list _ (coin_add (to_coin old) _))
    as [q|]; [|intros [= <-]; split; [discriminate|auto]].
  destruct (q =? 0)%float; [discriminate|]. intros [= <-]. split.
  - intros _ _ _ p' q' [= <-] [= <-]. reflexivity.
  - intros [H|[H|[H|[H|H]]]]; congruence.
Qed.

Lemma initialize_row_idempotent all_tickers row row' :
  initialize_row config all_tickers row = inr row' ->
  initialize_row config all_tickers row' = inr row'.
Proof.
  unfold initialize_row at 1, py_div.
  destruct (ratio row) as [r|] eqn:Hr;
    [intros [= <-]; unfold initialize_row; rewrite Hr; reflexivity|].
  destruct (negb _ || negb _) eqn:He;
    [intros [= <-]; unfold initialize_row; rewrite Hr, He; reflexivity|].
  destruct (get_market_ticker_price_from_list _ (coin_add (from_coin row) _))
    as [p|] eqn:Hp;
    [|intros [= <-]; unfold initialize_row; rewrite Hr, He, Hp; reflexivity].
  destruct (get_market_ticker_price_from_list _ (coin_add (to_coin row) _))
    as [q|] eqn:Hq;
    [|intros [= <-]; unfold initialize_row;
      rewrite Hr, He, Hp, Hq; reflexivity].
  destruct (q =? 0)%float; [discriminate|]. intros [= <-]. reflexivity.
Qed.

(** *** [initialize_trade_thresholds] *)

(** C8 -- the initializer is idempotent.  A call that returns has, on the
    snapshot it fetched, set to [fromPrice / toPrice] the ratio of every pair
    whose ratio was unset, whose endpoints are both enabled and both priced,
    and has left every other pair as it was; a second call that is served
    the same snapshot returns too and modifies no ratio. *)
Theorem initialize_idempotent s tr s1 :
  let all_tickers := (get_all_market_tickers (world s)).1 in
  initialize_trade_thresholds config s = (tr, Ok tt s1) ->
  (get_all_market_tickers (world s1)).1 = all_tickers ->
  Forall2
    (fun old new =>
       (ratio old = None ->
        enabled (from_coin old) = true -> enabled (to_coin old) = true ->
        forall p q,
          get_market_ticker_price_from_list all_tickers
            (coin_add (from_coin old) (BRIDGE config)) = Some p ->
          get_market_ticker_price_from_list all_tickers
            (coin_add (to_coin old) (BRIDGE config)) = Some q ->
          new = set_ratio old (p / q)) /\
       (ratio old <> None \/
        enabled (from_coin old) = false \/ enabled (to_coin old) = false \/
        get_market_ticker_price_from_list all_tickers
          (coin_add (from_coin old) (BRIDGE config)) = None \/
        get_market_ticker_price_from_list all_tickers
          (coin_add (to_coin old) (BRIDGE config)) = None ->
        new = old))
    (pairs s) (pairs s1) /\
  exists tr2 s2,
    initialize_trade_thresholds config s1 = (tr2, Ok tt s2) /\
    pairs s2 = pairs s1.
Proof.
  cbv zeta.
  unfold initialize_trade_thresholds, manager_get_all_market_tickers,
    db_session, bind.
  destruct (get_all_market_tickers (world s)) as [t w1]. simpl.
  destruct (session_loop _ (pairs s)) as [rows [e|]] eqn:Hs; [discriminate|].
  intros [= <- <-]. simpl.
  destruct (get_all_market_tickers w1) as [t' w2]. simpl. intros ->.
  split.
  - eapply Forall2_impl; [exact (session_loop_rows _ _ _ Hs)|].
    intros old new Hb. exact (initialize_row_inr _ _ _ Hb).
  - rewrite (session_loop_idempotent _ _ _
               (initialize_row_idempotent t) Hs).
    eexists _, _. split; reflexivity.
Qed.

(** *** [transaction_through_bridge] *)

Lemma jump_unfold pair all_tickers s :
  transaction_through_bridge config pair all_tickers s
  = let sold := sell_alt (from_coin pair) (BRIDGE config) (world s) in
    let bought := buy_alt (to_coin pair) (BRIDGE config) all_tickers sold.2 in
    match sold.1, bought.1 with
    | None, _ =>
        ([EvSell (from_coin pair) None], Ok false (set_world s sold.2))
    | Some o, None =>
        ([EvSell (from_coin pair) (Some o); EvBuy (to_coin pair) None],
         Ok false (set_world s bought.2))
    | Some o, Some order =>
        let session :=
          session_loop
            (update_row config (to_coin pair) (order_price order) all_tickers)
            (pairs s) in
        ([EvSell (from_coin pair) (Some o);
          EvBuy (to_coin pair) (Some order)],
         match session.2 with
         | None => Ok true (set_pairs (set_world s bought.2) session.1)
         | Some e => Raise e (set_pairs (set_world s bought.2) session.1)
         end)
    end.
Proof.
  cbv zeta.
  unfold transaction_through_bridge, update_trade_threshold, db_session,
    manager_sell_alt, manager_buy_alt, bind, ret.
  destruct (sell_alt _ _ _) as [[o|] w1]; simpl; [|reflexivity].
  destruct (buy_alt _ _ _ _) as [[order|] w2]; simpl; [|reflexivity].
  destruct (session_loop _ _) as [rows [e|]]; reflexivity.
Qed.

(** C4 -- the outcomes of a jump.  If the sell leg fails the jump returns
    [False], no buy is attempted and no stored ratio is modified.  If the
    sell succeeds and the buy leg fails it returns [False] and no stored
    ratio is modified.  If both legs succeed the recalibration session runs
    over the rows at the fill price of the buy, and the jump returns [True]
    when the session completes; and the jump returns [True] in that case
    only. *)
Theorem jump_outcomes pair all_tickers s :
  let r := transaction_through_bridge config pair all_tickers s in
  let sold := sell_alt (from_coin pair) (BRIDGE config) (world s) in
  let bought := buy_alt (to_coin pair) (BRIDGE config) all_tickers sold.2 in
  (sold.1 = None ->
   r = ([EvSell (from_coin pair) None], Ok false (set_world s sold.2)) /\
   pairs (final r.2) = pairs s) /\
  (forall o,
      sold.1 = Some o -> bought.1 = None ->
      r = ([EvSell (from_coin pair) (Some o); EvBuy (to_coin pair) None],
           Ok false (set_world s bought.2)) /\
      pairs (final r.2) = pairs s) /\
  (forall o order,
      sold.1 = Some o -> bought.1 = Some order ->
      let session :=
        session_loop
          (update_row config (to_coin pair) (order_price order) all_tickers)
          (pairs s) in
      r.1 = [EvSell (from_coin pair) (Some o);
             EvBuy (to_coin pair) (Some order)] /\
      pairs (final r.2) = session.1 /\
      (session.2 = None -> exists s', r.2 = Ok true s')) /\
  (forall s', r.2 = Ok true s' -> is_Some sold.1 /\ is_Some bought.1).
Proof.
  cbv zeta. rewrite jump_unfold. cbv zeta.
  destruct (sell_alt _ _ _) as [[o|] w1]; simpl.
  - destruct (buy_alt _ _ _ _) as [[order|] w2]; simpl.
    + split; [discriminate|]. split; [discriminate|]. split.
      * intros o' order' [= <-] [= <-].
        destruct (session_loop _ _) as [rows [e|]]; simpl;
          (split; [reflexivity|]); (split; [reflexivity|]);
          [discriminate|eauto].
      * intros _ _. split; eauto.
    + split; [discriminate|]. split.
      * intros o' [= <-] _. split; reflexivity.
      * split; [discriminate|]. discriminate.
  - split; [intros _; split; reflexivity|].
    split; [discriminate|]. split; discriminate.
Qed.

(** C5 -- recalibration after a successful jump.  When the jump to [B]
    returns [True], the buy was filled at some price [f] and, row by row,
    every pair keeps its id and its endpoints, and: a pair with [to == B]
    whose from-side price [p] is in the snapshot has the stored ratio
    [p / f]; a pair with [to == B] whose from-side price is absent has the
    ratio it had; a pair with [to != B] has the ratio it had. *)
Theorem jump_recalibrates pair all_tickers s tr s' :
  transaction_through_bridge config pair all_tickers s = (tr, Ok true s') ->
  exists order,
    List.filter is_buy tr = [EvBuy (to_coin pair) (Some order)] /\
    coins s' = coins s /\
    Forall2
      (fun old new =>
         pair_id new = pair_id old /\
         from_coin new = from_coin old /\
         to_coin new = to_coin old /\
         (symbol (to_coin old) = symbol (to_coin pair) ->
          forall p,
            get_market_ticker_price_from_list all_tickers
              (coin_add (from_coin old) (BRIDGE config)) = Some p ->
            ratio new = Some (p / order_price order)%float) /\
         (symbol (to_coin old) = symbol (to_coin pair) ->
          get_market_ticker_price_from_list all_tickers
            (coin_add (from_coin old) (BRIDGE config)) = None ->
          ratio new = ratio old) /\
         (symbol (to_coin old) <> symbol (to_coin pair) ->
          ratio new = ratio old))
      (pairs s) (pairs s').
Proof.
  intros J. rewrite jump_unfold in J. cbv zeta in J.
  destruct (sell_alt _ _ _) as [[o|] w1]; simpl in J; [|discriminate].
  destruct (buy_alt _ _ _ _) as [[order|] w2]; simpl in J; [|discriminate].
  destruct (session_loop _ _) as [rows [e|]] eqn:Hs; simpl in J;
    [discriminate|].
  injection J as <- <-. exists order. simpl.
  split; [reflexivity|]. split; [reflexivity|].
  apply session_loop_rows in Hs.
  eapply Forall2_impl; [exact Hs|].
  intros old new Hb.
  destruct (update_row_inr _ _ _ _ _ Hb) as (Hset & Hskip & Hother).
  destruct (decide (symbol (to_coin old) = symbol (to_coin pair))) as [Hto|Hto].
  - destruct (get_market_ticker_price_from_list all_tickers
                (coin_add (from_coin old) (BRIDGE config))) as [p|] eqn:Hp.
    + rewrite (Hset Hto p eq_refl). simpl.
      repeat split; congruence.
    + rewrite (Hskip Hto eq_refl). repeat split; congruence.
  - rewrite (Hother Hto). repeat split; congruence.
Qed.

(** *** Specifications of the methods *)

Section Methods.

Variable I : State -> Prop.
Variable T : Event -> Prop.
Hypothesis I_world : forall s w, I s -> I (set_world s w).
Hypothesis T_balance : forall sym b, T (EvBalance sym b).
Hypothesis T_min_notional :
  forall sym bridge m, T (EvMinNotional sym bridge m).
Hypothesis T_sell : forall origin r, T (EvSell origin r).
Hypothesis T_buy : forall target r, T (EvBuy target r).

Variable all_tickers : Tickers.

(** The scouting records carry the prices of the snapshot. *)
Hypothesis T_log_scout :
  forall pair stored cp op,
    get_market_ticker_price_from_list all_tickers
      (coin_add (from_coin pair) (BRIDGE config)) = Some cp ->
    get_market_ticker_price_from_list all_tickers
      (coin_add (to_coin pair) (BRIDGE config)) = Some op ->
    T (EvLogScout pair stored cp op).

(** Recalibration at a fill price of the venue keeps [I]. *)
Hypothesis I_recalibrate :
  forall pair order s,
    (exists w,
        (buy_alt (to_coin pair) (BRIDGE config) all_tickers w).1
        = Some order) ->
    I s ->
    I (set_pairs s
         (session_loop
            (update_row config (to_coin pair) (order_price order) all_tickers)
            (pairs s)).1).

Lemma get_ratios_loop_triple coin_price rows :
  (forall pair, pair ∈ rows ->
     get_market_ticker_price_from_list all_tickers
       (coin_add (from_coin pair) (BRIDGE config)) = Some coin_price) ->
  triple I T (get_ratios_loop config coin_price all_tickers rows)
    (fun _ => True).
Proof.
  induction rows as [|row rest IH]; simpl; intros Hrows.
  - apply triple_ret. exact Logic.I.
  - assert (triple I T (get_ratios_loop config coin_price all_tickers rest)
              (fun _ => True)) as IH'.
    { apply IH. intros pair Hin. apply Hrows. right. exact Hin. }
    destruct (get_market_ticker_price_from_list _ _) as [op|] eqn:Hop;
      [|exact IH'].
    eapply triple_bind.
    { apply triple_emit. apply T_log_scout; [|exact Hop].
      apply Hrows. left. }
    intros _ _. eapply triple_bind.
    { apply (triple_lift I T _ (fun _ => True)). auto. }
    intros v _. eapply triple_bind; [exact IH'|].
    intros d _. apply triple_ret. exact Logic.I.
Qed.

Lemma coin_add_from coin pair :
  coin_eqb (from_coin pair) coin = true ->
  coin_add (from_coin pair) (BRIDGE config) = coin_add coin (BRIDGE config).
Proof.
  unfold coin_eqb, coin_add. intros H%bool_decide_eq_true. rewrite H.
  reflexivity.
Qed.

Lemma get_ratios_triple coin coin_price :
  get_market_ticker_price_from_list all_tickers
    (coin_add coin (BRIDGE config)) = Some coin_price ->
  triple I T (_get_ratios config coin coin_price all_tickers) (fun _ => True).
Proof.
  intros Hp s Hs. unfold _get_ratios. rewrite bind_unfold. simpl.
  destruct (get_ratios_loop_triple coin_price (pairs_from coin (pairs s)))
    with (s := s) as (Htr & HI & _); [|exact Hs|].
  { intros pair [Hfrom _]%list_elem_of_filter.
    rewrite (coin_add_from coin pair Hfrom). exact Hp. }
  destruct (get_ratios_loop _ _ _ _ s) as [tr r]. simpl in *. auto.
Qed.

Lemma jump_triple pair :
  triple I T (transaction_through_bridge config pair all_tickers)
    (fun _ => True).
Proof.
  unfold transaction_through_bridge.
  eapply triple_bind; [apply triple_sell; auto|].
  intros [o|] _; [|apply triple_ret; exact Logic.I].
  eapply triple_bind.
  { apply (triple_buy I T I_world _ _ _
             (fun r => exists w,
                  (buy_alt (to_coin pair) (BRIDGE config) all_tickers w).1
                  = r)); eauto. }
  intros [order|] Hbuy; [|apply triple_ret; exact Logic.I].
  eapply triple_bind; [|intros _ _; apply triple_ret; exact Logic.I].
  simpl. apply triple_session. intros s Hs.
  apply I_recalibrate; [exact Hbuy|exact Hs].
Qed.

Lemma scout_coin_triple coin :
  triple I T (scout_coin config all_tickers coin) (fun _ => True).
Proof.
  unfold scout_coin.
  eapply triple_bind; [apply triple_balance; auto|].
  intros b _.
  destruct (get_market_ticker_price_from_list _ _) as [p|] eqn:Hp;
    [|apply triple_ret; exact Logic.I].
  eapply triple_bind; [apply triple_min_notional; auto|].
  intros m _. destruct (p * b <? m)%float; [apply triple_ret; exact Logic.I|].
  eapply triple_bind; [apply get_ratios_triple; exact Hp|].
  intros d _. destruct (filter _ d) as [|kv rest];
    [apply triple_ret; exact Logic.I|].
  eapply triple_bind; [apply jump_triple|].
  intros _ _. apply triple_ret. exact Logic.I.
Qed.

Lemma bridge_scout_coin_triple bridge_balance coin :
  triple I T (bridge_scout_coin config bridge_balance all_tickers coin)
    (fun _ => True).
Proof.
  unfold bridge_scout_coin.
  destruct (get_market_ticker_price_from_list _ _) as [p|] eqn:Hp;
    [|apply triple_ret; exact Logic.I].
  eapply triple_bind; [apply get_ratios_triple; exact Hp|].
  intros d _. destruct (negb _); [|apply triple_ret; exact Logic.I].
  eapply triple_bind; [apply triple_min_notional; auto|].
  intros m _. destruct (m <? bridge_balance)%float;
    [|apply triple_ret; exact Logic.I].
  eapply triple_bind;
    [apply (triple_buy I T I_world _ _ _ (fun _ => True)); auto|].
  intros _ _. apply triple_ret. exact Logic.I.
Qed.

End Methods.

(** *** [scout] *)

(** C3 (as the code has it) -- the order of the per-asset checks of [scout].
    The price is looked up first: when it is missing from the snapshot the
    loop returns at once, whatever the balance, no later coin is scouted and
    the pass ends without the bridge check.  Only for a priced coin is
    balance x price compared with the minimum notional, and a coin below it
    is skipped: the loop goes on with the next coin. *)
Theorem scout_checks_price_then_balance all_tickers coin rest s :
  let bal := get_currency_balance (symbol coin) (world s) in
  let minn := get_min_notional (symbol coin) (symbol (BRIDGE config)) bal.2 in
  (get_market_ticker_price_from_list all_tickers
     (coin_add coin (BRIDGE config)) = None ->
   for_each (scout_coin config all_tickers) (coin :: rest) s
   = ([EvBalance (symbol coin) bal.1], Ok Return (set_world s bal.2))) /\
  (forall p,
      get_market_ticker_price_from_list all_tickers
        (coin_add coin (BRIDGE config)) = Some p ->
      (p * bal.1 <? minn.1)%float = true ->
      skipped config all_tickers coin s /\
      for_each (scout_coin config all_tickers) (coin :: rest) s
      = let '(tr, r) :=
          for_each (scout_coin config all_tickers) rest (set_world s minn.2) in
        (EvBalance (symbol coin) bal.1
           :: EvMinNotional (symbol coin) (symbol (BRIDGE config)) minn.1
           :: tr, r)) /\
  (forall tr s',
      for_each (scout_coin config all_tickers) (coins s)
        (set_world s (get_all_market_tickers (world s)).2)
      = (tr, Ok Return s') ->
      all_tickers = (get_all_market_tickers (world s)).1 ->
      scout config s = (EvTickers all_tickers :: tr, Ok tt s')).
Proof.
  cbv zeta. split; [|split].
  - intros Hp. simpl. unfold scout_coin, manager_get_currency_balance, bind.
    rewrite Hp. destruct (get_currency_balance _ _) as [b w]. reflexivity.
  - intros p Hp Hlt. unfold skipped. simpl.
    unfold scout_coin, manager_get_currency_balance,
      manager_get_min_notional, bind.
    rewrite Hp. destruct (get_currency_balance _ _) as [b w]. simpl in *.
    destruct (get_min_notional _ _ _) as [m w']. simpl in *.
    rewrite Hlt. simpl. split; [eexists _, _; split; reflexivity|].
    destruct (for_each _ rest _) as [tr r]. reflexivity.
  - intros tr s' Hl ->. unfold scout, manager_get_all_market_tickers, bind.
    destruct (get_all_market_tickers _) as [t w]. simpl in *.
    rewrite Hl. simpl. rewrite app_nil_r. reflexivity.
Qed.

Lemma bridge_scout_unfold s :
  bridge_scout config s
  = let '(b, w) := get_currency_balance (symbol (BRIDGE config)) (world s) in
    let '(t, w') := get_all_market_tickers w in
    let '(tr, r) :=
      for_each (bridge_scout_coin config b t) (coins s)
        (set_world (set_world s w) w') in
    (EvBalance (symbol (BRIDGE config)) b :: EvTickers t :: tr,
     match r with Ok _ s' => Ok tt s' | Raise e s' => Raise e s' end).
Proof.
  unfold bridge_scout, manager_get_currency_balance,
    manager_get_all_market_tickers, db_get_coins, bind, ret.
  destruct (get_currency_balance _ _) as [b w]. simpl.
  destruct (get_all_market_tickers w) as [t w']. simpl.
  destruct (for_each _ _ _) as [tr [fl s'|e s']]; simpl;
    rewrite ?app_nil_r; reflexivity.
Qed.

Lemma scout_unfold s :
  scout config s
  = let '(t, w) := get_all_market_tickers (world s) in
    let '(tr, r) :=
      for_each (scout_coin config t) (coins s) (set_world s w) in
    match r with
    | Ok Next s' =>
        let '(tr', r') := bridge_scout config s' in
        (EvTickers t :: tr ++ tr', r')
    | Ok Return s' => (EvTickers t :: tr, Ok tt s')
    | Raise e s' => (EvTickers t :: tr, Raise e s')
    end.
Proof.
  unfold scout, manager_get_all_market_tickers, db_get_coins, bind, ret.
  destruct (get_all_market_tickers _) as [t w]. simpl.
  destruct (for_each _ _ _) as [tr [[] s'|e s']]; simpl;
    rewrite ?app_nil_r; try reflexivity.
  destruct (bridge_scout config s') as [tr' r']. reflexivity.
Qed.

Lemma jump_run_within pair all_tickers s tr r :
  transaction_through_bridge config pair all_tickers s = (tr, r) ->
  jump_within config all_tickers pair s tr r.
Proof.
  rewrite jump_unfold. cbv zeta.
  destruct (sell_alt _ _ _) as [[o|] w] eqn:Hs; simpl.
  - destruct (buy_alt _ _ _ _) as [[order|] w'] eqn:Hb; simpl.
    + destruct (session_loop _ _) as [rows oe] eqn:Hl. simpl.
      intros [= <- <-]. eapply jump_filled; eauto.
    + intros [= <- <-]. eapply jump_unbought; eauto.
  - intros [= <- <-]. apply jump_unsold; auto.
Qed.

Lemma filter_positive_none (d : list (Pair * float)) :
  filter (fun kv : Pair * float => positive_score kv.2 = true) d = [] ->
  forall kv, kv ∈ d -> (0 <? kv.2)%float = false.
Proof.
  intros Hf kv Hin. destruct (0 <? kv.2)%float eqn:Hkv; [|reflexivity].
  assert (kv ∈ filter (fun kv : Pair * float => positive_score kv.2 = true) d)
    as H by (apply list_elem_of_filter; split; assumption).
  rewrite Hf in H. inversion H.
Qed.

Lemma loop_run_within all_tickers cs s tr r :
  for_each (scout_coin config all_tickers) cs s = (tr, r) ->
  loop_within config all_tickers cs s tr r.
Proof.
  revert s tr r. induction cs as [|coin cs IH]; intros s tr r H; simpl in H.
  - injection H as <- <-. constructor.
  - rewrite bind_unfold in H.
    unfold scout_coin at 1 in H.
    unfold manager_get_currency_balance, manager_get_min_notional in H.
    rewrite bind_unfold in H.
    destruct (get_currency_balance _ _) as [b w] eqn:Hb. simpl in H.
    destruct (get_market_ticker_price_from_list _ _) as [p|] eqn:Hp;
      simpl in H.
    2:{ injection H as <- <-. eapply loop_unpriced; eauto. }
    rewrite bind_unfold in H.
    destruct (get_min_notional _ _ _) as [m w'] eqn:Hm. simpl in H.
    destruct (p * b <? m)%float eqn:Hv; simpl in H.
    { destruct (for_each _ cs _) as [tr' r'] eqn:Hl.
      injection H as <- <-. eapply loop_below; eauto. }
    rewrite bind_unfold in H.
    destruct (_get_ratios config coin p all_tickers _) as [trs [d s1|e s1]]
      eqn:Hg; simpl in H.
    2:{ injection H as <- <-. eapply loop_scores_raise; eauto. }
    destruct (filter _ d) as [|kv rest] eqn:Hf; simpl in H.
    { destruct (for_each _ cs _) as [tr' r'] eqn:Hl.
      injection H as <- <-. rewrite app_nil_r.
      eapply loop_no_candidate; eauto using filter_positive_none. }
    rewrite bind_unfold in H.
    destruct (transaction_through_bridge _ _ _ _) as [trj [done s2|e s2]]
      eqn:Hj; simpl in H; apply jump_run_within in Hj.
    + destruct (for_each _ cs _) as [tr' r'] eqn:Hl.
      injection H as <- <-. rewrite app_nil_r, <- app_assoc.
      eapply loop_jump; eauto.
    + injection H as <- <-.
      eapply loop_jump_raise; eauto.
Qed.

Lemma existsb_positive_witness (d : list (Pair * float)) :
  existsb (fun kv : Pair * float => positive_score kv.2) d = true ->
  exists kv, kv ∈ d /\ (0 <? kv.2)%float = true.
Proof.
  intros H. apply existsb_exists in H as (kv & Hin & Hkv).
  exists kv. split; [apply list_elem_of_In; exact Hin|exact Hkv].
Qed.

Lemma existsb_positive_none (d : list (Pair * float)) :
  existsb (fun kv : Pair * float => positive_score kv.2) d = false ->
  forall kv, kv ∈ d -> (0 <? kv.2)%float = false.
Proof.
  intros H kv Hin. destruct (0 <? kv.2)%float eqn:Hkv; [|reflexivity].
  rewrite (proj2 (existsb_exists _ d)) in H; [discriminate|].
  exists kv. split; [apply list_elem_of_In; exact Hin|exact Hkv].
Qed.

Lemma check_run_within bridge_balance all_tickers cs s tr r :
  for_each (bridge_scout_coin config bridge_balance all_tickers) cs s
  = (tr, r) ->
  check_within config bridge_balance all_tickers cs s tr r.
Proof.
  revert s tr r. induction cs as [|coin cs IH]; intros s tr r H; simpl in H.
  - injection H as <- <-. constructor.
  - rewrite bind_unfold in H. unfold bridge_scout_coin at 1 in H.
    destruct (get_market_ticker_price_from_list _ _) as [p|] eqn:Hp;
      simpl in H.
    2:{ injection H as <- <-. apply check_unpriced. exact Hp. }
    rewrite bind_unfold in H.
    destruct (_get_ratios config coin p all_tickers s) as [trs [d s1|e s1]]
      eqn:Hg; simpl in H.
    2:{ injection H as <- <-. eapply check_scores_raise; eauto. }
    destruct (existsb _ d) eqn:Hd; simpl in H.
    + apply existsb_positive_witness in Hd as (kv & Hin & Hkv).
      destruct (for_each _ cs s1) as [tr' r'] eqn:Hl.
      injection H as <- <-. rewrite app_nil_r.
      eapply check_pass; eauto.
    + pose proof (existsb_positive_none d Hd) as Hnone.
      rewrite bind_unfold in H. unfold manager_get_min_notional in H.
      destruct (get_min_notional _ _ _) as [m w] eqn:Hm. simpl in H.
      destruct (m <? bridge_balance)%float eqn:Hb; simpl in H.
      * rewrite bind_unfold in H. unfold manager_buy_alt in H.
        destruct (buy_alt _ _ _ _) as [res w'] eqn:Hbuy. simpl in H.
        injection H as <- <-. rewrite !app_nil_r.
        exact (check_buy config bridge_balance all_tickers coin cs s p trs
                 d s1 m w res w' Hp Hg Hnone Hm Hb Hbuy).
      * injection H as <- <-. rewrite !app_nil_r.
        exact (check_no_buy config bridge_balance all_tickers coin cs s p
                 trs d s1 m w Hp Hg Hnone Hm Hb).
Qed.

(** C2 (as the code has it) -- the snapshots of a pass.  [scout] fetches one
    snapshot at its start and its per-asset loop is a run within that
    snapshot: the price of each coin, the test of its holdings against the
    minimum notional, the scores, the buy leg of every jump and the
    recalibration that follows a fill all take their prices from it, and
    every comparison recorded has its prices on both sides.  The bridge
    check, when the loop reaches it, reads the bridge balance and fetches a
    snapshot of its own, and is a run within that second snapshot: the price
    of each coin, the scores and the buy take their prices from it.  No
    other snapshot is fetched.  And the ratio a recalibration stores is the
    from-side price of the snapshot it is handed over the fill price. *)
Theorem scout_snapshots s :
  (let snap := get_all_market_tickers (world s) in
   exists tr1 r1 rest,
     (scout config s).1 = EvTickers snap.1 :: tr1 ++ rest /\
     Forall (reads_from config snap.1) tr1 /\
     loop_within config snap.1 (coins s) (set_world s snap.2) tr1 r1 /\
     match r1 with
     | Ok Next s1 =>
         let bal := get_currency_balance (symbol (BRIDGE config)) (world s1) in
         let snap' := get_all_market_tickers bal.2 in
         exists tr2 r2,
           rest = EvBalance (symbol (BRIDGE config)) bal.1
                    :: EvTickers snap'.1 :: tr2 /\
           Forall (reads_from config snap'.1) tr2 /\
           check_within config bal.1 snap'.1 (coins s1)
             (set_world s1 snap'.2) tr2 r2 /\
           (scout config s).2
           = match r2 with
             | Ok _ s2 => Ok tt s2
             | Raise e s2 => Raise e s2
             end
     | Ok Return s1 => rest = [] /\ (scout config s).2 = Ok tt s1
     | Raise e s1 => rest = [] /\ (scout config s).2 = Raise e s1
     end) /\
  (forall coin (f : float) all_tickers old new p,
      update_row config coin f all_tickers old = inr new ->
      symbol (to_coin old) = symbol coin ->
      get_market_ticker_price_from_list all_tickers
        (coin_add (from_coin old) (BRIDGE config)) = Some p ->
      ratio new = Some (p / f)%float).
Proof.
  split.
  2:{ intros coin f all_tickers old new p Hrow Hto Hp.
      destruct (update_row_inr _ _ _ _ _ Hrow) as (Hset & _).
      rewrite (Hset Hto p Hp). reflexivity. }
  cbv zeta. rewrite scout_unfold.
  destruct (get_all_market_tickers (world s)) as [t1 w1]. simpl.
  assert (forall t bal cs s0,
             Forall (reads_from config t)
               (for_each (scout_coin config t) cs s0).1 /\
             Forall (reads_from config t)
               (for_each (bridge_scout_coin config bal t) cs s0).1) as Hloops.
  { intros t bal cs s0. split.
    - apply (triple_for_each (fun _ => True) (reads_from config t)
               (scout_coin config t) cs); [|exact Logic.I].
      intros coin. apply scout_coin_triple; simpl; auto.
    - apply (triple_for_each (fun _ => True) (reads_from config t)
               (bridge_scout_coin config bal t) cs); [|exact Logic.I].
      intros coin. apply bridge_scout_coin_triple; simpl; auto. }
  pose proof (proj1 (Hloops t1 0%float (coins s) (set_world s w1))) as H1.
  destruct (for_each _ _ _) as [tr1 r1] eqn:Hl1. simpl in H1.
  apply loop_run_within in Hl1.
  destruct r1 as [[] s1|e s1].
  - rewrite bridge_scout_unfold.
    destruct (get_currency_balance _ _) as [b w] eqn:Hb.
    destruct (get_all_market_tickers w) as [t2 w'] eqn:Ht.
    pose proof (proj2 (Hloops t2 b (coins s1)
                         (set_world (set_world s1 w) w'))) as H2.
    destruct (for_each _ _ _) as [tr2 r2] eqn:Hl2. simpl in H2.
    apply check_run_within in Hl2.
    exists tr1, (Ok Next s1),
      (EvBalance (symbol (BRIDGE config)) b :: EvTickers t2 :: tr2).
    split; [reflexivity|]. split; [exact H1|]. split; [exact Hl1|].
    cbv zeta. rewrite Hb. simpl. rewrite Ht. simpl.
    exists tr2, r2. split; [reflexivity|]. split; [exact H2|].
    split; [exact Hl2|reflexivity].
  - exists tr1, (Ok Return s1), []. rewrite app_nil_r. simpl. auto.
  - exists tr1, (Raise e s1), []. rewrite app_nil_r. simpl. auto.
Qed.

(** *** [bridge_scout] *)

Lemma no_buy_filter tr :
  Forall (fun ev => is_buy ev = false) tr -> List.filter is_buy tr = [].
Proof.
  induction 1 as [|ev tr Hev _ IH]; simpl; [reflexivity|].
  rewrite Hev. exact IH.
Qed.

Lemma get_ratios_no_buy coin coin_price all_tickers s :
  get_market_ticker_price_from_list all_tickers
    (coin_add coin (BRIDGE config)) = Some coin_price ->
  List.filter is_buy (_get_ratios config coin coin_price all_tickers s).1 = [].
Proof.
  intros Hp. apply no_buy_filter.
  apply (get_ratios_triple (fun _ => True) (fun ev => is_buy ev = false)
           all_tickers); auto.
Qed.

Lemma bridge_loop_buys bridge_balance all_tickers cs s :
  let tr :=
    (for_each (bridge_scout_coin config bridge_balance all_tickers) cs s).1 in
  List.filter is_buy tr = [] \/
  exists pre coin m res,
    tr = pre ++ [EvMinNotional (symbol coin) (symbol (BRIDGE config)) m;
                 EvBuy coin res] /\
    List.filter is_buy pre = [] /\
    (m <? bridge_balance)%float = true.
Proof.
  cbv zeta. revert s. induction cs as [|coin rest IH]; intros s; simpl;
    [left; reflexivity|].
  rewrite bind_unfold. unfold bridge_scout_coin.
  destruct (get_market_ticker_price_from_list _ _) as [p|] eqn:Hp;
    [|left; reflexivity].
  rewrite bind_unfold.
  pose proof (get_ratios_no_buy coin p all_tickers s Hp) as Hg.
  destruct (_get_ratios config coin p all_tickers s) as [trg [d s1|e s1]];
    simpl in *; [|left; exact Hg].
  destruct (negb _).
  - rewrite bind_unfold. unfold manager_get_min_notional.
    destruct (get_min_notional _ _ _) as [m w]. simpl.
    destruct (m <? bridge_balance)%float eqn:Hm.
    + rewrite bind_unfold. unfold manager_buy_alt.
      destruct (buy_alt _ _ _ _) as [res w']. simpl.
      right. exists trg, coin, m, res. rewrite !app_nil_r. auto.
    + simpl. left. rewrite !app_nil_r, List.filter_app, Hg. reflexivity.
  - simpl. specialize (IH s1).
    destruct (for_each _ rest s1) as [trr r]. simpl in *.
    rewrite app_nil_r.
    destruct IH as [IH|(pre & c & m & res & -> & Hpre & Hm)].
    + left. rewrite List.filter_app, Hg, IH. reflexivity.
    + right. exists (trg ++ pre), c, m, res.
      rewrite List.filter_app, Hg, Hpre, app_assoc. auto.
Qed.

(** C9 -- the bridge check buys above the minimum only.  In every run of
    [bridge_scout], with [b] the bridge balance it reads at its start: either
    no buy is made, or exactly one is, as the last call of the run, directly
    after the venue has answered the minimum notional [m] of that very coin,
    and then [b > m]; so it is not the case that [b < m]. *)
Theorem bridge_check_buys_above_minimum s :
  let b := (get_currency_balance (symbol (BRIDGE config)) (world s)).1 in
  let tr := (bridge_scout config s).1 in
  List.filter is_buy tr = [] \/
  exists pre coin m res,
    tr = pre ++ [EvMinNotional (symbol coin) (symbol (BRIDGE config)) m;
                 EvBuy coin res] /\
    List.filter is_buy pre = [] /\
    (m <? b)%float = true /\ (b <? m)%float = false.
Proof.
  cbv zeta. rewrite bridge_scout_unfold.
  destruct (get_currency_balance _ _) as [b w].
  destruct (get_all_market_tickers w) as [t w']. simpl.
  pose proof (bridge_loop_buys b t (coins s)
                (set_world (set_world s w) w')) as H.
  destruct (for_each _ _ _) as [tr r]. simpl in *.
  destruct H as [H|(pre & c & m & res & -> & Hpre & Hm)].
  - left. exact H.
  - right.
    exists (EvBalance (symbol (BRIDGE config)) b :: EvTickers t :: pre),
      c, m, res.
    split; [reflexivity|]. split; [exact Hpre|].
    split; [exact Hm|]. apply Binary64.ltb_asym, Hm.
Qed.

Lemma existsb_positive_false (d : list (Pair * float)) :
  (forall kv, kv ∈ d -> (0 <? kv.2)%float = false) ->
  existsb (fun kv : Pair * float => positive_score kv.2) d = false.
Proof.
  induction d as [|kv d IH]; simpl; intros H; [reflexivity|].
  unfold positive_score at 1. rewrite (H kv) by left. simpl.
  apply IH. intros kv' Hin. apply H. right. exact Hin.
Qed.

Lemma existsb_positive_true (d : list (Pair * float)) kv :
  kv ∈ d -> (0 <? kv.2)%float = true ->
  existsb (fun kv : Pair * float => positive_score kv.2) d = true.
Proof.
  intros Hin Hkv. apply existsb_exists. exists kv.
  split; [apply list_elem_of_In; exact Hin|exact Hkv].
Qed.

Lemma get_ratios_unpriced coin (p : float) all_tickers s :
  (forall pair,
      pair ∈ pairs_from coin (pairs s) ->
      get_market_ticker_price_from_list all_tickers
        (coin_add (to_coin pair) (BRIDGE config)) = None) ->
  _get_ratios config coin p all_tickers s = ([], Ok [] s).
Proof.
  intros H. unfold _get_ratios. rewrite bind_unfold. simpl.
  induction (pairs_from coin (pairs s)) as [|row rows IH]; simpl;
    [reflexivity|].
  rewrite (H row) by left.
  apply IH. intros pair Hin. apply H. right. exact Hin.
Qed.

Lemma bridge_loop_stops coin rest (bridge_balance p : float) all_tickers
    s tr d s' :
  get_market_ticker_price_from_list all_tickers
    (coin_add coin (BRIDGE config)) = Some p ->
  _get_ratios config coin p all_tickers s = (tr, Ok d s') ->
  (forall kv, kv ∈ d -> (0 <? kv.2)%float = false) ->
  let minn :=
    get_min_notional (symbol coin) (symbol (BRIDGE config)) (world s') in
  let bought := buy_alt coin (BRIDGE config) all_tickers minn.2 in
  for_each (bridge_scout_coin config bridge_balance all_tickers)
    (coin :: rest) s
  = if (minn.1 <? bridge_balance)%float
    then (tr ++ [EvMinNotional (symbol coin) (symbol (BRIDGE config)) minn.1;
                 EvBuy coin bought.1],
          Ok Return (set_world s' bought.2))
    else (tr ++ [EvMinNotional (symbol coin) (symbol (BRIDGE config)) minn.1],
          Ok Return (set_world s' minn.2)).
Proof.
  intros Hp Hg Hd. cbv zeta. simpl.
  rewrite bind_unfold. unfold bridge_scout_coin. rewrite Hp.
  rewrite bind_unfold, Hg, (existsb_positive_false d Hd). simpl.
  rewrite bind_unfold. unfold manager_get_min_notional.
  destruct (get_min_notional _ _ _) as [m w]. simpl.
  destruct (m <? bridge_balance)%float; simpl;
    [|rewrite app_nil_r; reflexivity].
  rewrite bind_unfold. unfold manager_buy_alt.
  destruct (buy_alt _ _ _ _) as [res w']. simpl.
  rewrite app_nil_r. reflexivity.
Qed.

Lemma bridge_loop_passes bridge_balance all_tickers passed trs cs s :
  Forall2 (fun c tr => has_positive_score config all_tickers c s tr)
    passed trs ->
  for_each (bridge_scout_coin config bridge_balance all_tickers)
    (passed ++ cs) s
  = let '(tr, r) :=
      for_each (bridge_scout_coin config bridge_balance all_tickers) cs s in
    (concat trs ++ tr, r).
Proof.
  induction 1 as [|c tr0 passed trs (p & d & Hp & Hg & kv & Hin & Hkv) _ IH];
    simpl.
  - destruct (for_each _ cs s) as [tr r]. reflexivity.
  - rewrite bind_unfold. unfold bridge_scout_coin at 1. rewrite Hp.
    rewrite bind_unfold, Hg, (existsb_positive_true d kv Hin Hkv). simpl.
    rewrite IH. destruct (for_each _ cs s) as [tr r].
    rewrite app_nil_r, app_assoc. reflexivity.
Qed.

(** C10 -- where the bridge check stops.  When no counterpart of a coin is
    priced, [_get_ratios] returns the empty mapping and the check stops at
    that coin as at any coin without a strictly positive score.  The loop
    passes over the coins that are priced and have a strictly positive
    score, from an unchanged state.  At the first coin that is not so it
    returns, whatever coins follow: at a coin that has no price in the
    snapshot, with no further call, no minimum notional asked and no buy;
    at a priced coin none of whose scores is strictly positive, after it
    asked for the minimum notional of that coin and bought the coin if and
    only if the minimum notional is strictly below the bridge balance. *)
Theorem bridge_check_stops_at_first :
  (forall coin (p : float) all_tickers s,
      (forall pair,
          pair ∈ pairs_from coin (pairs s) ->
          get_market_ticker_price_from_list all_tickers
            (coin_add (to_coin pair) (BRIDGE config)) = None) ->
      _get_ratios config coin p all_tickers s = ([], Ok [] s) /\
      forall rest (bridge_balance : float),
        get_market_ticker_price_from_list all_tickers
          (coin_add coin (BRIDGE config)) = Some p ->
        let minn :=
          get_min_notional (symbol coin) (symbol (BRIDGE config)) (world s) in
        let bought := buy_alt coin (BRIDGE config) all_tickers minn.2 in
        for_each (bridge_scout_coin config bridge_balance all_tickers)
          (coin :: rest) s
        = if (minn.1 <? bridge_balance)%float
          then ([EvMinNotional (symbol coin) (symbol (BRIDGE config)) minn.1;
                 EvBuy coin bought.1],
                Ok Return (set_world s bought.2))
          else ([EvMinNotional (symbol coin) (symbol (BRIDGE config)) minn.1],
                Ok Return (set_world s minn.2))) /\
  (forall passed trs coin rest (bridge_balance : float) all_tickers s,
      Forall2 (fun c tr => has_positive_score config all_tickers c s tr)
        passed trs ->
      for_each (bridge_scout_coin config bridge_balance all_tickers) passed s
      = (concat trs, Ok Next s) /\
      (get_market_ticker_price_from_list all_tickers
         (coin_add coin (BRIDGE config)) = None ->
       for_each (bridge_scout_coin config bridge_balance all_tickers)
         (passed ++ coin :: rest) s
       = (concat trs, Ok Return s)) /\
      (forall (p : float) tr d s',
          get_market_ticker_price_from_list all_tickers
            (coin_add coin (BRIDGE config)) = Some p ->
          _get_ratios config coin p all_tickers s = (tr, Ok d s') ->
          (forall kv, kv ∈ d -> (0 <? kv.2)%float = false) ->
          let minn :=
            get_min_notional (symbol coin) (symbol (BRIDGE config))
              (world s') in
          let bought := buy_alt coin (BRIDGE config) all_tickers minn.2 in
          for_each (bridge_scout_coin config bridge_balance all_tickers)
            (passed ++ coin :: rest) s
          = if (minn.1 <? bridge_balance)%float
            then (concat trs ++ tr ++
                    [EvMinNotional (symbol coin) (symbol (BRIDGE config))
                       minn.1;
                     EvBuy coin bought.1],
                  Ok Return (set_world s' bought.2))
            else (concat trs ++ tr ++
                    [EvMinNotional (symbol coin) (symbol (BRIDGE config))
                       minn.1],
                  Ok Return (set_world s' minn.2)))).
Proof.
  split.
  - intros coin p all_tickers s H.
    pose proof (get_ratios_unpriced coin p all_tickers s H) as Hg.
    split; [exact Hg|]. intros rest b Hp.
    apply (bridge_loop_stops coin rest b p all_tickers s [] [] s Hp Hg).
    intros kv Hin. inversion Hin.
  - intros passed trs coin rest b all_tickers s Hpassed.
    split; [|split].
    + pose proof (bridge_loop_passes b all_tickers passed trs [] s Hpassed)
        as H.
      rewrite app_nil_r in H. rewrite H. simpl. rewrite app_nil_r.
      reflexivity.
    + intros Hp.
      rewrite (bridge_loop_passes b all_tickers passed trs _ s Hpassed).
      simpl. rewrite bind_unfold. unfold bridge_scout_coin. rewrite Hp.
      simpl. rewrite app_nil_r. reflexivity.
    + intros p tr d s' Hp Hg Hd. cbv zeta.
      rewrite (bridge_loop_passes b all_tickers passed trs _ s Hpassed).
      rewrite (bridge_loop_stops coin rest b p all_tickers s tr d s' Hp Hg Hd).
      cbv zeta. destruct (_ <? b)%float; reflexivity.
Qed.

(** *** The stored ratios *)

Lemma session_loop_preserves (R : Pair -> Prop) body rows :
  (forall row, R row -> exists row', body row = inr row' /\ R row') ->
  Forall R rows ->
  exists rows', session_loop body rows = (rows', None) /\ Forall R rows'.
Proof.
  intros Hb. induction 1 as [|row rest Hrow _ (rest' & IH & Hrest)]; simpl.
  - eexists. split; [reflexivity|constructor].
  - destruct (Hb row Hrow) as (row' & -> & Hrow'). rewrite IH.
    eexists. split; [reflexivity|]. constructor; assumption.
Qed.

Lemma update_row_nonneg current_coin (f : float) all_tickers row :
  prices_ok all_tickers -> finite_pos f = true ->
  (forall r, ratio row = Some r -> nonneg r) ->
  exists row',
    update_row config current_coin f all_tickers row = inr row' /\
    (forall r, ratio row' = Some r -> nonneg r).
Proof.
  intros Ht Hf Hrow. unfold update_row, py_div.
  destruct (coin_eqb _ _); [|eauto].
  destruct (get_market_ticker_price_from_list _ _) as [p|] eqn:Hp; [|eauto].
  rewrite (Binary64.finite_pos_nonzero f Hf).
  eexists. split; [reflexivity|]. simpl. intros r [= <-].
  apply Binary64.div_finite_pos; [|exact Hf]. exact (Ht _ _ Hp).
Qed.

Lemma initialize_row_nonneg all_tickers row :
  prices_ok all_tickers ->
  (forall r, ratio row = Some r -> nonneg r) ->
  exists row',
    initialize_row config all_tickers row = inr row' /\
    (forall r, ratio row' = Some r -> nonneg r).
Proof.
  intros Ht Hrow.
  assert (exists row' : Pair,
             @inr Exc Pair row = inr row' /\
             (forall r, ratio row' = Some r -> nonneg r)) as Hkeep
    by (exists row; split; [reflexivity|exact Hrow]).
  unfold initialize_row, py_div.
  destruct (ratio row) eqn:Hr; [exact Hkeep|].
  destruct (negb _ || negb _); [exact Hkeep|].
  destruct (get_market_ticker_price_from_list _ (coin_add (from_coin row) _))
    as [p|] eqn:Hp; [|exact Hkeep].
  destruct (get_market_ticker_price_from_list _ (coin_add (to_coin row) _))
    as [q|] eqn:Hq; [|exact Hkeep].
  rewrite (Binary64.finite_pos_nonzero q (Ht _ _ Hq)).
  eexists. split; [reflexivity|]. simpl. intros r [= <-].
  apply Binary64.div_finite_pos; [exact (Ht _ _ Hp)|exact (Ht _ _ Hq)].
Qed.

Lemma scout_nonneg s :
  venue_ok -> ratios_ok nonneg s -> ratios_ok nonneg (final (scout config s).2).
Proof.
  intros [Hsnap Hfill] Hs.
  assert (forall t bal cs s0,
             prices_ok t -> ratios_ok nonneg s0 ->
             ratios_ok nonneg
               (final (for_each (scout_coin config t) cs s0).2) /\
             ratios_ok nonneg
               (final (for_each (bridge_scout_coin config bal t) cs s0).2))
    as Hloops.
  { intros t bal cs s0 Ht Hs0. split.
    - apply (triple_for_each (ratios_ok nonneg) (fun _ => True)
               (scout_coin config t) cs); [|exact Hs0].
      intros coin. apply scout_coin_triple; auto.
      intros pair order s1 [w Hw] Hs1. unfold ratios_ok. simpl.
      destruct (session_loop_preserves _ _ _
                  (fun row => update_row_nonneg (to_coin pair)
                                (order_price order) t row Ht
                                (Hfill _ _ _ _ _ Hw)) Hs1)
        as (rows' & -> & Hrows'). exact Hrows'.
    - apply (triple_for_each (ratios_ok nonneg) (fun _ => True)
               (bridge_scout_coin config bal t) cs); [|exact Hs0].
      intros coin. apply bridge_scout_coin_triple; auto. }
  rewrite scout_unfold. pose proof (Hsnap (world s)) as Ht1.
  destruct (get_all_market_tickers (world s)) as [t1 w1]. simpl in Ht1.
  pose proof (proj1 (Hloops t1 0%float (coins s) (set_world s w1) Ht1 Hs))
    as H1.
  destruct (for_each _ _ _) as [tr1 [[] s'|e s']]; simpl in H1;
    [|exact H1|exact H1].
  rewrite bridge_scout_unfold.
  destruct (get_currency_balance _ _) as [b w].
  pose proof (Hsnap w) as Ht2.
  destruct (get_all_market_tickers w) as [t2 w']. simpl in Ht2.
  pose proof (proj2 (Hloops t2 b (coins s')
                       (set_world (set_world s' w) w') Ht2 H1)) as H2.
  destruct (for_each _ _ _) as [tr2 [fl s2|e s2]]; exact H2.
Qed.

(** C6 (as the code has it) -- the stored ratios stay numbers that are not
    below zero.  On a venue whose snapshot prices and fill prices are all
    finite and positive, if every stored ratio is unset or a number >= 0,
    then so it is after [initialize_trade_thresholds], which returns; after
    the recalibration [update_trade_threshold], which returns; and after any
    number of scout passes, however the run ends. *)
Theorem ratios_stay_nonneg :
  venue_ok ->
  (forall s,
      ratios_ok nonneg s ->
      exists tr s',
        initialize_trade_thresholds config s = (tr, Ok tt s') /\
        ratios_ok nonneg s') /\
  (forall current_coin (f : float) all_tickers s,
      prices_ok all_tickers -> finite_pos f = true ->
      ratios_ok nonneg s ->
      exists s',
        update_trade_threshold config current_coin (Some f) all_tickers s
        = ([], Ok tt s') /\
        ratios_ok nonneg s') /\
  (forall n s,
      ratios_ok nonneg s -> ratios_ok nonneg (final (passes config n s).2)).
Proof.
  intros Hv. split; [|split].
  - intros s Hs. destruct Hv as [Hsnap _].
    unfold initialize_trade_thresholds, manager_get_all_market_tickers,
      db_session, bind.
    pose proof (Hsnap (world s)) as Ht.
    destruct (get_all_market_tickers (world s)) as [t w]. simpl in *.
    destruct (session_loop_preserves _ _ _
                (fun row => initialize_row_nonneg t row Ht) Hs)
      as (rows' & -> & Hrows').
    eexists _, _. split; [reflexivity|exact Hrows'].
  - intros current_coin f all_tickers s Ht Hf Hs.
    unfold update_trade_threshold, db_session.
    destruct (session_loop_preserves _ _ _
                (fun row => update_row_nonneg current_coin f all_tickers row
                              Ht Hf) Hs)
      as (rows' & -> & Hrows').
    eexists. split; [reflexivity|exact Hrows'].
  - induction n as [|n IH]; intros s Hs; simpl; [exact Hs|].
    rewrite bind_unfold. pose proof (scout_nonneg s Hv Hs) as H1.
    destruct (scout config s) as [tr [[] s1|e s1]]; simpl in *; [|exact H1].
    specialize (IH s1 H1). destruct (passes config n s1) as [tr' r].
    exact IH.
Qed.

End Properties.

(** * Concrete runs *)

(** The example of C1, through the general statement. *)
Lemma get_ratios_score_formula_witness :
  exists q r,
    get_market_ticker_price_from_list Example.tickers
      (coin_add (to_coin Example.pairAB) (BRIDGE Example.config)) = Some q /\
    ratio Example.pairAB = Some r /\
    0.498%float = (10 / q - 0.001 * 1 * (10 / q) - r)%float.
Proof.
  apply (proj2 (proj1 (@get_ratios_score_formula (scripted Example.quiet)
                         Example.config)
                  Example.A 10%float Example.tickers Example.store)
           [EvLogScout Example.pairAB (Some 1.5%float) 10 5]
           [(Example.pairAB, 0.498%float)] Example.store).
  - vm_compute. reflexivity.
  - left.
Defined.

(** With A -> B priced and A -> C not, the mapping for A holds A -> B only. *)
Lemma get_ratios_skips_unpriced_witness :
  [(Example.pairAB, 0.498%float)].*1
  = filter (priced Example.config Example.tickers)
      (pairs_from Example.A (pairs Example.store3)) /\
  forall pair v,
    (pair, v) ∈ [(Example.pairAB, 0.498%float)] ->
    get_market_ticker_price_from_list Example.tickers
      (coin_add (to_coin pair) (BRIDGE Example.config)) <> None.
Proof.
  apply (@get_ratios_skips_unpriced (scripted Example.quiet) Example.config
           Example.A 10%float Example.tickers Example.store3
           [EvLogScout Example.pairAB (Some 1.5%float) 10 5]
           [(Example.pairAB, 0.498%float)] Example.store3).
  vm_compute. reflexivity.
Defined.

(** On the quiet venue the sell fails: the jump returns [False] after the
    one call and the rows are as they were. *)
Lemma jump_outcomes_witness :
  transaction_through_bridge Example.config Example.pairAB Example.tickers
    Example.store3
  = ([EvSell Example.A None], Ok false Example.store3) /\
  pairs (final (transaction_through_bridge Example.config Example.pairAB
                  Example.tickers Example.store3).2)
  = pairs Example.store3.
Proof.
  apply (proj1 (@jump_outcomes (scripted Example.quiet) Example.config
                  Example.pairAB Example.tickers Example.store3)).
  reflexivity.
Defined.

(** A jump A -> B filled at 4: the ratio of A -> B becomes 10 / 4 = 2.5,
    C -> B is skipped (C is not priced), A -> C and B -> A keep theirs. *)
Lemma jump_recalibrates_witness :
  exists order,
    List.filter is_buy
      [EvSell Example.A (Some (mkOrder 10%float));
       EvBuy Example.B (Some (mkOrder 4%float))]
    = [EvBuy (to_coin Example.pairAB) (Some order)] /\
    coins (@mkState (scripted Example.eager) 0%nat
             [mkPair 1 Example.A Example.B (Some 2.5%float);
              mkPair 2 Example.A Example.C (Some 2%float);
              mkPair 3 Example.B Example.A (Some 0.5%float);
              mkPair 4 Example.C Example.B (Some 3%float)]
             [Example.A; Example.B; Example.C])
    = coins Example.store4 /\
    Forall2
      (fun old new =>
         pair_id new = pair_id old /\
         from_coin new = from_coin old /\
         to_coin new = to_coin old /\
         (symbol (to_coin old) = symbol (to_coin Example.pairAB) ->
          forall p,
            get_market_ticker_price_from_list Example.tickers
              (coin_add (from_coin old) (BRIDGE Example.config)) = Some p ->
            ratio new = Some (p / order_price order)%float) /\
         (symbol (to_coin old) = symbol (to_coin Example.pairAB) ->
          get_market_ticker_price_from_list Example.tickers
            (coin_add (from_coin old) (BRIDGE Example.config)) = None ->
          ratio new = ratio old) /\
         (symbol (to_coin old) <> symbol (to_coin Example.pairAB) ->
          ratio new = ratio old))
      (pairs Example.store4)
      [mkPair 1 Example.A Example.B (Some 2.5%float);
       mkPair 2 Example.A Example.C (Some 2%float);
       mkPair 3 Example.B Example.A (Some 0.5%float);
       mkPair 4 Example.C Example.B (Some 3%float)].
Proof.
  apply (@jump_recalibrates (scripted Example.eager) Example.config
           Example.pairAB Example.tickers Example.store4).
  vm_compute. reflexivity.
Defined.

(** Initialization on the snapshot {A = 10, B = 5, D = 2}: only A -> B is
    set, to 10 / 5, and a second call changes nothing. *)
Lemma initialize_idempotent_witness :
  let initialized : @State (scripted Example.quiet) :=
    @mkState (scripted Example.quiet) 1%nat
      [mkPair 1 Example.A Example.B (Some 2%float);
       mkPair 2 Example.A Example.C None; Example.pairBA;
       mkPair 5 Example.A Example.D None]
      [Example.A; Example.B; Example.C] in
  Forall2
    (fun old new =>
       (ratio old = None ->
        enabled (from_coin old) = true -> enabled (to_coin old) = true ->
        forall p q,
          get_market_ticker_price_from_list Example.tickers
            (coin_add (from_coin old) (BRIDGE Example.config)) = Some p ->
          get_market_ticker_price_from_list Example.tickers
            (coin_add (to_coin old) (BRIDGE Example.config)) = Some q ->
          new = set_ratio old (p / q)) /\
       (ratio old <> None \/
        enabled (from_coin old) = false \/ enabled (to_coin old) = false \/
        get_market_ticker_price_from_list Example.tickers
          (coin_add (from_coin old) (BRIDGE Example.config)) = None \/
        get_market_ticker_price_from_list Example.tickers
          (coin_add (to_coin old) (BRIDGE Example.config)) = None ->
        new = old))
    (pairs Example.fresh) (pairs initialized) /\
  exists tr2 s2,
    initialize_trade_thresholds Example.config initialized
    = (tr2, Ok tt s2) /\
    pairs s2 = pairs initialized.
Proof.
  intros initialized.
  apply (@initialize_idempotent (scripted Example.quiet) Example.config
           Example.fresh [EvTickers Example.tickers] initialized).
  - vm_compute. reflexivity.
  - reflexivity.
Defined.

(** The coin B of the quiet venue: priced at 5, nothing held, minimum
    notional 10.  It is skipped and the loop goes on. *)
Lemma scout_checks_price_then_balance_witness :
  skipped Example.config Example.tickers Example.B Example.store3 /\
  for_each (scout_coin Example.config Example.tickers)
    [Example.B; Example.C] Example.store3
  = let '(tr, r) :=
      for_each (scout_coin Example.config Example.tickers) [Example.C]
        Example.store3 in
    (EvBalance "B" 0%float :: EvMinNotional "B" "USDT" 10%float :: tr, r).
Proof.
  apply (proj1 (proj2 (@scout_checks_price_then_balance
                         (scripted Example.quiet) Example.config
                         Example.tickers Example.B [Example.C]
                         Example.store3)) 5%float).
  - reflexivity.
  - vm_compute. reflexivity.
Defined.

(** C3 (as stated) fails: on the quiet venue nothing is held of C, so its
    holdings are below the minimum notional at any price, and C has no price
    in the snapshot.  Checking the balance first would skip C; the code
    returns from the pass. *)
Lemma spec_order_counterexample :
  ~ (forall (manager : BinanceAPIManager) (config : Config)
            (all_tickers : Tickers) (coin : Coin) (s : State),
        below_minimum config all_tickers coin s ->
        skipped config all_tickers coin s).
Proof.
  intros H.
  destruct (H (scripted Example.quiet) Example.config Example.tickers
              Example.C Example.store3) as (tr & s' & Hrun & _).
  - split; reflexivity.
  - vm_compute in Hrun. discriminate Hrun.
Qed.

(** C2 (as stated) fails: on a venue whose prices move between the start of
    the pass and the bridge check, the pass fetches a second snapshot and the
    bridge check compares A at 20, the price of the second snapshot, where
    the snapshot of the start of the pass has 10. *)
Lemma single_snapshot_counterexample :
  ~ (forall (manager : BinanceAPIManager) (config : Config) (s : State),
        exists tr,
          (scout config s).1
          = EvTickers (get_all_market_tickers (world s)).1 :: tr /\
          Forall (reads_from config (get_all_market_tickers (world s)).1) tr).
Proof.
  intros H.
  destruct (H (scripted Example.drifting) Example.config Example.store2)
    as (tr & Hrun & Hall).
  assert (EvTickers Example.tickers_later ∈ tr) as Hin.
  { vm_compute in Hrun. injection Hrun as <-.
    do 5 apply list_elem_of_further. left. }
  rewrite Forall_forall in Hall. exact (Hall _ Hin).
Qed.

(** On the eager venue (bridge balance 100, minimum notional 10) the check
    passes over A, whose score 0.498 for B is positive, and stops at B,
    whose only score is negative: B is bought, C is never examined.  On the
    quiet venue (bridge balance 0) the only pair from B leads to C, which is
    not priced: the mapping of B is empty, the loop stops at B without a buy,
    and A is never examined. *)
Lemma bridge_check_stops_at_first_witness :
  for_each (bridge_scout_coin Example.config 100%float Example.tickers)
    [Example.A; Example.B; Example.C] Example.store4
  = ([EvLogScout Example.pairAB (Some 1.5%float) 10%float 5%float;
      EvLogScout Example.pairBA (Some 0.5%float) 5%float 10%float;
      EvMinNotional "B" "USDT" 10%float;
      EvBuy Example.B (Some (mkOrder 4%float))],
     Ok Return Example.store4) /\
  for_each (bridge_scout_coin Example.config 0%float Example.tickers)
    [Example.B; Example.A] Example.store5
  = ([EvMinNotional "B" "USDT" 10%float], Ok Return Example.store5).
Proof.
  split.
  - apply (proj2 (proj2 (proj2 (@bridge_check_stops_at_first
                                  (scripted Example.eager) Example.config)
                           [Example.A]
                           [[EvLogScout Example.pairAB (Some 1.5%float)
                               10%float 5%float]]
                           Example.B [Example.C] 100%float Example.tickers
                           Example.store4
                           ltac:(constructor; [|constructor];
                                 exists 10%float,
                                   [(Example.pairAB, 0.498%float)];
                                 split; [reflexivity|];
                                 split; [vm_compute; reflexivity|];
                                 exists (Example.pairAB, 0.498%float);
                                 split; [left|reflexivity])))
             5%float
             [EvLogScout Example.pairBA (Some 0.5%float) 5%float 10%float]
             [(Example.pairBA, (-0.00050000000000000044)%float)] Example.store4).
    + reflexivity.
    + vm_compute. reflexivity.
    + intros kv Hin. apply list_elem_of_singleton in Hin. subst kv.
      reflexivity.
  - apply (proj2 (proj1 (@bridge_check_stops_at_first
                           (scripted Example.quiet) Example.config)
                    Example.B 5%float Example.tickers Example.store5
                    ltac:(intros pair Hin; vm_compute in Hin;
                          apply list_elem_of_singleton in Hin; subst pair;
                          reflexivity))
             [Example.A] 0%float).
    reflexivity.
Defined.

(** C10 (as stated) fails: on the eager venue, with C ahead of B in the
    list of coins, B is the first coin whose scores are computed and none of
    them is strictly positive, and the bridge balance 100 exceeds its minimum
    notional 10; but C has no price in the snapshot, the loop returns at C,
    and B is neither examined nor bought. *)
Lemma bridge_check_unpriced_counterexample :
  ~ (forall (manager : BinanceAPIManager) (config : Config)
            (bridge_balance : float) (all_tickers : Tickers)
            (passed : list Coin) (coin : Coin) (rest : list Coin)
            (s : State),
        no_positive_score config all_tickers coin s ->
        Forall (fun c => ~ no_positive_score config all_tickers c s) passed ->
        exists m,
          EvMinNotional (symbol coin) (symbol (BRIDGE config)) m
          ∈ (for_each (bridge_scout_coin config bridge_balance all_tickers)
               (passed ++ coin :: rest) s).1).
Proof.
  intros H.
  destruct (H (scripted Example.eager) Example.config 100%float
              Example.tickers [Example.C] Example.B [] Example.store4)
    as (m & Hin).
  - exists 5%float,
      [EvLogScout Example.pairBA (Some 0.5%float) 5%float 10%float],
      [(Example.pairBA, (-0.00050000000000000044)%float)], Example.store4.
    split; [reflexivity|]. split; [vm_compute; reflexivity|].
    intros kv Hkv. apply list_elem_of_singleton in Hkv. subst kv.
    reflexivity.
  - constructor; [|constructor].
    intros (p & tr & d & s' & Hp & _). vm_compute in Hp. discriminate Hp.
  - vm_compute in Hin. inversion Hin.
Qed.

(** The prices of a concrete snapshot. *)
Ltac concrete_prices :=
  apply map_Forall_to_list; vm_compute;
  repeat (constructor; [reflexivity|]); constructor.

Lemma eager_venue_ok : @venue_ok (scripted Example.eager).
Proof.
  split.
  - intros w. simpl. unfold prices_ok. concrete_prices.
  - intros target bridge all_tickers w order [= <-]. reflexivity.
Qed.

Lemma extreme_venue_ok : @venue_ok (scripted Example.extreme).
Proof.
  split.
  - intros w. simpl. unfold prices_ok. concrete_prices.
  - intros target bridge all_tickers w order [=].
Qed.

(** Two passes on the venue where jumps are filled: the first jumps from A
    to B, filled at 4, and recalibrates A -> B to 10 / 4. *)
Lemma ratios_stay_nonneg_witness :
  ratios_ok nonneg (final (passes Example.config 2 Example.store4).2) /\
  pairs (final (passes Example.config 2 Example.store4).2)
  = [set_ratio Example.pairAB 2.5%float; Example.pairAC; Example.pairBA;
     Example.pairCB].
Proof.
  split; [|vm_compute; reflexivity].
  apply (proj2 (proj2 (@ratios_stay_nonneg (scripted Example.eager)
                         Example.config eager_venue_ok))
           2%nat Example.store4).
  unfold ratios_ok. simpl.
  repeat (constructor; [intros r [= <-]; reflexivity|]). constructor.
Defined.

(** C6 (as stated) fails: a quotient of two finite positive binary64 numbers
    need be neither positive nor finite.  With A at 1e-200 and B at 1e200,
    initialization stores 1e-200 / 1e200, which underflows to 0, as the
    ratio of A -> B, and 1e200 / 1e-200, which overflows to infinity, as the
    ratio of B -> A. *)
Lemma finite_positive_ratio_counterexample :
  ~ (forall (manager : BinanceAPIManager) (config : Config) (s : State),
        venue_ok ->
        ratios_ok (fun r => finite_pos r = true) s ->
        ratios_ok (fun r => finite_pos r = true)
          (final (initialize_trade_thresholds config s).2)).
Proof.
  intros H.
  specialize (H (scripted Example.extreme) Example.config Example.unset
                extreme_venue_ok).
  assert (ratios_ok (fun r => finite_pos r = true) Example.unset)
    as Hs.
  { unfold ratios_ok. simpl. repeat (constructor; [intros r [=]|]).
    constructor. }
  specialize (H Hs). unfold ratios_ok in H.
  apply Forall_cons_1 in H as [H _].
  specialize (H 0%float eq_refl). vm_compute in H. discriminate H.
Qed.

(** ** Runs of the examples *)

(** The pass on the venue whose prices move: nothing is held, so the loop
    skips A and B within the first snapshot; the bridge check then fetches
    the second snapshot and scouts A at 20. *)
Example drifting_pass :
  (scout Example.config Example.store2).1
  = [EvTickers Example.tickers;
     EvBalance "A" 0%float; EvMinNotional "A" "USDT" 10%float;
     EvBalance "B" 0%float; EvMinNotional "B" "USDT" 10%float;
     EvBalance "USDT" 0%float;
     EvTickers Example.tickers_later;
     EvLogScout Example.pairAB (Some 1.5%float) 20%float 5%float;
     EvLogScout Example.pairBA (Some 0.5%float) 5%float 20%float;
     EvMinNotional "B" "USDT" 10%float].
Proof. vm_compute. reflexivity. Qed.

(** A bridge check that buys: B has no positive score, and the bridge
    balance, 100, is above the minimum notional of B, 10. *)
Example bridge_check_buys :
  (bridge_scout Example.config Example.store1).1
  = [EvBalance "USDT" 100%float;
     EvTickers Example.tickers;
     EvLogScout Example.pairBA (Some 0.5%float) 5%float 10%float;
     EvMinNotional "B" "USDT" 10%float;
     EvBuy Example.B (Some (mkOrder 4%float))].
Proof. vm_compute. reflexivity. Qed.

(** Initialization on prices far apart: the ratio of A -> B underflows to 0
    and the ratio of B -> A overflows to infinity. *)
Example extreme_initialization :
  pairs (final (initialize_trade_thresholds Example.config Example.unset).2)
  = [mkPair 1 Example.A Example.B (Some 0%float);
     mkPair 3 Example.B Example.A (Some infinity)].
Proof. vm_compute. reflexivity. Qed.

(** * Further properties *)

(** ** The order of binary64 *)

Module Binary64Order.

(** The order of the numbers: a key whose lexicographic order is the order
    [<] of the interpreter; NaN has no key. *)
Definition key (x : spec_float) : option (Z * Z * Z) :=
  match x with
  | S754_nan => None
  | S754_infinity true => Some (-2, 0, 0)%Z
  | S754_infinity false => Some (2, 0, 0)%Z
  | S754_zero _ => Some (0, 0, 0)%Z
  | S754_finite true m e => Some (-1, - e, - Z.pos m)%Z
  | S754_finite false m e => Some (1, e, Z.pos m)%Z
  end.

Definition lex_lt (k k' : Z * Z * Z) : Prop :=
  let '(a, b, c) := k in
  let '(a', b', c') := k' in
  (a < a' \/ a = a' /\ (b < b' \/ b = b' /\ c < c'))%Z.

Lemma SFltb_key (x y : spec_float) :
  SFltb x y = true <->
  exists kx ky, key x = Some kx /\ key y = Some ky /\ lex_lt kx ky.
Proof.
  assert (forall k k' : Z * Z * Z,
             (exists kx ky,
                 Some k = Some kx /\ Some k' = Some ky /\ lex_lt kx ky)
             <-> lex_lt k k') as Hsome.
  { intros k k'. split; [|eauto].
    intros (kx & ky & [= <-] & [= <-] & H). exact H. }
  assert (forall o o' : option (Z * Z * Z),
             o = None \/ o' = None ->
             false = true <->
             exists kx ky, o = Some kx /\ o' = Some ky /\ lex_lt kx ky)
    as Hnone.
  { intros o o' [-> | ->]; (split; [discriminate|]);
      intros (kx & ky & H1 & H2 & _); discriminate. }
  unfold SFltb.
  destruct x as [[]|[]| |[] mx ex], y as [[]|[]| |[] my ey]; simpl;
    try (apply Hnone; auto; fail);
    rewrite Hsome; simpl;
    try change (Pos.compare_cont Eq mx my) with (mx ?= my)%positive;
    try (destruct (Z.compare_spec ex ey);
         try destruct (Pos.compare_spec mx my));
    simpl;
    (split; intros Hlt; [try discriminate Hlt; lia|try reflexivity; lia]).
Qed.

(** [<] is transitive. *)
Lemma ltb_trans (x y z : float) :
  (x <? y)%float = true -> (y <? z)%float = true -> (x <? z)%float = true.
Proof.
  rewrite !FloatAxioms.ltb_spec, !SFltb_key.
  intros (kx & ky & Hx & Hy & H1) (ky' & kz & Hy' & Hz & H2).
  rewrite Hy in Hy'. injection Hy' as <-.
  exists kx, kz. split; [exact Hx|]. split; [exact Hz|].
  destruct kx as [[a b] c], ky as [[a' b'] c'], kz as [[a'' b''] c''].
  simpl in *. lia.
Qed.

(** A number equals itself; NaN has no key and does not. *)
Lemma SFeqb_key (x : spec_float) : SFeqb x x = true <-> is_Some (key x).
Proof.
  unfold SFeqb.
  destruct x as [[]|[]| |[] m e]; simpl;
    try rewrite Z.compare_refl; try rewrite Pos.compare_cont_refl; simpl;
    try rewrite Pos.compare_refl; simpl;
    (split;
     [intros H; try discriminate H; eauto
     |intros [k H]; try discriminate H; reflexivity]).
Qed.

(** Both sides of a true [<] are numbers. *)
Lemma ltb_numbers (x y : float) :
  (x <? y)%float = true ->
  (x =? x)%float = true /\ (y =? y)%float = true.
Proof.
  rewrite FloatAxioms.ltb_spec, !FloatAxioms.eqb_spec, SFltb_key, !SFeqb_key.
  intros (kx & ky & Hx & Hy & _). rewrite Hx, Hy. eauto.
Qed.

(** The numbers are totally ordered: a number that is not above [c] is
    below whatever is above [c]. *)
Lemma not_ltb_lt (c x r : float) :
  (c <? x)%float = false -> (c <? r)%float = true ->
  (x <? r)%float = true \/ (x =? x)%float = false.
Proof.
  rewrite !FloatAxioms.ltb_spec, FloatAxioms.eqb_spec.
  intros Hcx Hcr.
  destruct (key (Prim2SF x)) as [kx|] eqn:Hx.
  - left. apply SFltb_key in Hcr as (kc & kr & Hc & Hr & Hlt).
    apply SFltb_key. exists kx, kr. split; [exact Hx|]. split; [exact Hr|].
    assert (~ lex_lt kc kx) as Hn.
    { intros Hl. rewrite (proj2 (SFltb_key _ _)) in Hcx; [discriminate|].
      exists kc, kx. auto. }
    destruct kc as [[a b] d], kx as [[a' b'] d'], kr as [[a'' b''] d''].
    simpl in *. lia.
  - right. destruct (SFeqb _ _) eqn:He; [|reflexivity].
    apply SFeqb_key in He as [k He]. rewrite Hx in He. discriminate.
Qed.

End Binary64Order.

Section Further.

Context `{manager : BinanceAPIManager}.
Variable config : Config.

Implicit Types (s : State) (tr : list Event) (all_tickers : Tickers).
Implicit Types (pair row : Pair) (coin : Coin).

(** *** [_get_ratios]: errors and records *)

Lemma get_ratios_loop_requires coin_price all_tickers rows s tr d s' :
  get_ratios_loop config coin_price all_tickers rows s = (tr, Ok d s') ->
  forall pair q,
    pair ∈ rows ->
    get_market_ticker_price_from_list all_tickers
      (coin_add (to_coin pair) (BRIDGE config)) = Some q ->
    (q =? 0)%float = false /\ is_Some (ratio pair).
Proof.
  intros Hl pair q Hin Hq.
  destruct (get_ratios_loop_items config _ _ _ _ _ _ _ Hl) as [Hk Hv].
  assert (pair ∈ d.*1) as Hd.
  { rewrite Hk. apply list_elem_of_filter. split; [|exact Hin].
    unfold priced. rewrite Hq. eauto. }
  apply list_elem_of_fmap in Hd as ([pair' v] & -> & Hd).
  rewrite Forall_forall in Hv. destruct (Hv _ Hd) as (q' & Hq' & Hs).
  simpl in *. rewrite Hq in Hq'. injection Hq' as <-.
  destruct (score_inr config _ _ _ _ Hs) as (Hz & r & Hr & _).
  split; [exact Hz|]. rewrite Hr. eauto.
Qed.

Lemma get_ratios_loop_records coin_price all_tickers rows s tr d s' :
  get_ratios_loop config coin_price all_tickers rows s = (tr, Ok d s') ->
  tr = omap (scout_record config all_tickers coin_price) rows.
Proof.
  revert tr d. induction rows as [|row rest IH]; simpl; intros tr d H.
  - injection H as <- _ _. reflexivity.
  - unfold scout_record at 1.
    destruct (get_market_ticker_price_from_list _ _) as [q|] eqn:Hq;
      [|exact (IH _ _ H)].
    rewrite bind_unfold in H. simpl in H. rewrite bind_unfold in H.
    destruct (score _ _ _ _) as [e|v]; simpl in H; [discriminate|].
    rewrite bind_unfold in H.
    destruct (get_ratios_loop _ _ _ rest s) as [tr' [d' s''|e s'']] eqn:Hl;
      simpl in H; [|discriminate].
    injection H as <- <- <-. rewrite app_nil_r.
    rewrite (IH _ _ eq_refl). reflexivity.
Qed.

Lemma get_ratios_readonly coin (p : float) all_tickers s :
  final (_get_ratios config coin p all_tickers s).2 = s.
Proof.
  unfold _get_ratios. rewrite bind_unfold. simpl.
  pose proof (get_ratios_loop_readonly config p all_tickers
                (pairs_from coin (pairs s)) s) as Hs.
  destruct (get_ratios_loop _ _ _ _ s) as [tr r]. exact Hs.
Qed.

Lemma no_order_filter tr :
  Forall (fun ev => is_order ev = false) tr -> List.filter is_order tr = [].
Proof.
  induction 1 as [|ev tr Hev _ IH]; simpl; [reflexivity|].
  rewrite Hev. exact IH.
Qed.

Lemma get_ratios_no_order coin (p : float) all_tickers s :
  get_market_ticker_price_from_list all_tickers
    (coin_add coin (BRIDGE config)) = Some p ->
  List.filter is_order (_get_ratios config coin p all_tickers s).1 = [].
Proof.
  intros Hp. apply no_order_filter.
  apply (get_ratios_triple config (fun _ => True)
           (fun ev => is_order ev = false) all_tickers); auto.
Qed.

(** X1 -- when [_get_ratios] returns and when it raises.  It never changes
    the store or the venue, whether it returns or raises; and it returns if
    and only if every pair from the coin whose counterpart is priced has a
    counterpart price that is not zero and a stored ratio that is set:
    otherwise the division or the subtraction of [None] raises. *)
Theorem get_ratios_returns_iff coin (p : float) all_tickers s :
  final (_get_ratios config coin p all_tickers s).2 = s /\
  ((exists tr d s', _get_ratios config coin p all_tickers s = (tr, Ok d s'))
   <->
   forall pair q,
     pair ∈ pairs_from coin (pairs s) ->
     get_market_ticker_price_from_list all_tickers
       (coin_add (to_coin pair) (BRIDGE config)) = Some q ->
     (q =? 0)%float = false /\ is_Some (ratio pair)).
Proof.
  unfold _get_ratios. rewrite bind_unfold. simpl.
  pose proof (get_ratios_loop_readonly config p all_tickers
                (pairs_from coin (pairs s)) s) as Hs.
  destruct (get_ratios_loop _ _ _ _ s) as [tr r] eqn:Hl. simpl in *.
  split; [exact Hs|]. split.
  - intros (tr' & d & s' & [= <- ->]).
    exact (get_ratios_loop_requires _ _ _ _ _ _ _ Hl).
  - intros H.
    destruct (get_ratios_loop_returns config p all_tickers _ s H)
      as (tr' & d & Hr).
    rewrite Hr in Hl. injection Hl as <- <-. eauto.
Qed.

(** X2 -- the scouting records of [_get_ratios].  When it returns, the calls
    it has made are exactly one [log_scout] per pair from the coin whose
    counterpart is priced, in the order of the pairs, each with the stored
    ratio, the price of the coin and the price of the counterpart; a pair
    whose counterpart is not priced leaves no record. *)
Theorem get_ratios_records coin (p : float) all_tickers s tr d s' :
  _get_ratios config coin p all_tickers s = (tr, Ok d s') ->
  tr = omap (scout_record config all_tickers p) (pairs_from coin (pairs s)) /\
  length tr = length d.
Proof.
  unfold _get_ratios. rewrite bind_unfold. simpl.
  destruct (get_ratios_loop _ _ _ _ s) as [tr' r] eqn:Hl.
  intros [= <- ->].
  pose proof (get_ratios_loop_records _ _ _ _ _ _ _ Hl) as Htr.
  split; [exact Htr|].
  destruct (get_ratios_loop_items config _ _ _ _ _ _ _ Hl) as [Hk _].
  rewrite <- (length_fmap fst d), Hk, Htr.
  clear. induction (pairs_from coin (pairs s)) as [|row rows IH];
    [reflexivity|].
  rewrite filter_cons. simpl. unfold scout_record at 1.
  destruct (get_market_ticker_price_from_list _ _) as [q|] eqn:Hq.
  - rewrite decide_True by (unfold priced; rewrite Hq; eauto).
    simpl. f_equal. exact IH.
  - rewrite decide_False by (unfold priced; rewrite Hq; intros [? [=]]).
    exact IH.
Qed.

(** *** The choice of [scout] *)

Lemma ltb_irrefl (x : float) : (x <? x)%float = false.
Proof.
  destruct (x <? x)%float eqn:H; [|reflexivity].
  rewrite (Binary64.ltb_asym x x H) in H. discriminate.
Qed.

Lemma not_ltb_step (a b x : float) :
  (a <? b)%float = true -> (a <? x)%float = false -> (b <? x)%float = false.
Proof.
  intros Hab Hax. destruct (b <? x)%float eqn:Hbx; [|reflexivity].
  rewrite (Binary64Order.ltb_trans a b x Hab Hbx) in Hax. discriminate.
Qed.

Lemma max_from_in best items : max_from best items ∈ best :: items.
Proof.
  revert best. induction items as [|kv rest IH]; intros best; simpl;
    [left|].
  specialize (IH (if (best.2 <? kv.2)%float then kv else best)).
  apply elem_of_cons in IH as [-> | IH].
  - destruct (best.2 <? kv.2)%float; [right; left|left].
  - right. right. exact IH.
Qed.

Lemma max_from_bound best items (x : float) :
  (best.2 <? x)%float = false -> ((max_from best items).2 <? x)%float = false.
Proof.
  revert best. induction items as [|kv rest IH]; intros best H; simpl;
    [exact H|].
  apply IH. destruct (best.2 <? kv.2)%float eqn:Hlt; [|exact H].
  exact (not_ltb_step _ _ _ Hlt H).
Qed.

Lemma max_from_greatest best items kv :
  kv ∈ best :: items -> ((max_from best items).2 <? kv.2)%float = false.
Proof.
  revert best. induction items as [|kv' rest IH]; intros best Hin.
  - apply list_elem_of_singleton in Hin as ->. apply ltb_irrefl.
  - simpl. apply elem_of_cons in Hin as [-> | Hin].
    + apply max_from_bound.
      destruct (best.2 <? kv'.2)%float eqn:Hlt; [|apply ltb_irrefl].
      exact (Binary64.ltb_asym _ _ Hlt).
    + apply elem_of_cons in Hin as [-> | Hin].
      * apply max_from_bound.
        destruct (best.2 <? kv'.2)%float eqn:Hlt; [apply ltb_irrefl|].
        exact Hlt.
      * apply IH. right. exact Hin.
Qed.

Lemma max_from_first best items :
  (forall kv, kv ∈ items -> (best.2 <? kv.2)%float = false) ->
  max_from best items = best.
Proof.
  revert best. induction items as [|kv rest IH]; intros best H; simpl;
    [reflexivity|].
  rewrite (H kv) by left. apply IH. intros kv' Hin. apply H. right.
  exact Hin.
Qed.

Lemma max_from_first_maximum best items :
  first_maximum (best :: items) (max_from best items).
Proof.
  revert best. induction items as [|kv rest IH]; intros best.
  - exists [], []. simpl. split; [reflexivity|].
    split; [intros kv H; inversion H|].
    split; [intros kv H; inversion H|reflexivity].
  - simpl max_from.
    destruct (IH (if (best.2 <? kv.2)%float then kv else best))
      as (pre0 & post0 & Heq & Hpre & Hpost & Hnan).
    set (r := max_from (if (best.2 <? kv.2)%float then kv else best) rest)
      in *.
    destruct (best.2 <? kv.2)%float eqn:Hlt.
    + (* the running maximum moves to [kv] *)
      destruct (Binary64Order.ltb_numbers _ _ Hlt) as [Hb Hk].
      exists (best :: pre0), post0. simpl. rewrite <- Heq.
      split; [reflexivity|]. split; [|split; [exact Hpost|]].
      * intros x Hx. apply elem_of_cons in Hx as [-> | Hx]; [|auto].
        left. destruct pre0 as [|y pre1].
        -- simpl in Heq. injection Heq as Hr _. rewrite <- Hr. exact Hlt.
        -- simpl in Heq. injection Heq as <- _.
           destruct (Hpre kv) as [Hkr | Hkn]; [left| |congruence].
           exact (Binary64Order.ltb_trans _ _ _ Hlt Hkr).
      * intros x [= <-] Hx. congruence.
    + (* [best] stays *)
      destruct pre0 as [|y pre1].
      * simpl in Heq. injection Heq as Hr Hrest.
        exists [], (kv :: rest). simpl. rewrite <- Hr.
        split; [reflexivity|]. split; [intros x H; inversion H|].
        split; [|reflexivity].
        intros x Hx. apply elem_of_cons in Hx as [-> | Hx]; [exact Hlt|].
        rewrite Hr. apply Hpost. rewrite <- Hrest. exact Hx.
      * simpl in Heq. injection Heq as <- Hrest.
        assert ((best.2 <? r.2)%float = true) as Hbr.
        { destruct (Hpre best) as [H | H]; [left|exact H|].
          specialize (Hnan best eq_refl H). discriminate. }
        exists (best :: kv :: pre1), post0. simpl. rewrite Hrest.
        split; [reflexivity|]. split; [|split; [exact Hpost|]].
        -- intros x Hx. apply elem_of_cons in Hx as [-> | Hx]; [auto|].
           apply elem_of_cons in Hx as [-> | Hx].
           ++ exact (Binary64Order.not_ltb_lt _ _ _ Hlt Hbr).
           ++ apply Hpre. right. exact Hx.
        -- intros x [= <-] Hx.
           destruct (Binary64Order.ltb_numbers _ _ Hbr) as [Hb _].
           congruence.
Qed.

Lemma first_maximum_unique xs r r' :
  first_maximum xs r -> first_maximum xs r' -> r = r'.
Proof.
  assert (forall pre post pre' post' (r r' : Pair * float) mid,
             xs = pre ++ r :: post ->
             pre' = pre ++ r :: mid ->
             post = mid ++ r' :: post' ->
             (forall kv,
                 kv ∈ pre ->
                 (kv.2 <? r.2)%float = true \/ (kv.2 =? kv.2)%float = false) ->
             (forall kv, kv ∈ post -> (r.2 <? kv.2)%float = false) ->
             (forall kv,
                 head xs = Some kv -> (kv.2 =? kv.2)%float = false ->
                 pre = []) ->
             (forall kv,
                 kv ∈ pre' ->
                 (kv.2 <? r'.2)%float = true \/ (kv.2 =? kv.2)%float = false) ->
             (forall kv,
                 head xs = Some kv -> (kv.2 =? kv.2)%float = false ->
                 pre' = []) ->
             False) as Hapart.
  { intros pre post pre' post' q q' mid Hxs -> -> Hpre Hpost Hnan Hpre' Hnan'.
    assert ((q.2 =? q.2)%float = false) as Hq.
    { destruct (Hpre' q) as [H | H]; [| |exact H].
      - apply elem_of_app. right. left.
      - rewrite Hpost in H; [discriminate|].
        apply elem_of_app. right. left. }
    destruct pre as [|y pre1].
    - simpl in Hxs. subst xs. specialize (Hnan' q eq_refl Hq). discriminate.
    - simpl in Hxs. subst xs.
      destruct (Hpre y) as [H | H]; [left| |].
      + destruct (Binary64Order.ltb_numbers _ _ H) as [_ H']. congruence.
      + specialize (Hnan' y eq_refl H). discriminate. }
  intros (pre & post & Hxs & Hpre & Hpost & Hnan)
         (pre' & post' & Hxs' & Hpre' & Hpost' & Hnan').
  pose proof Hxs as Heq. rewrite Hxs' in Heq.
  apply app_eq_app in Heq as [mid [[Hp Hq] | [Hp Hq]]].
  - destruct mid as [|z mid].
    + simpl in Hq. injection Hq as -> _. reflexivity.
    + simpl in Hq. injection Hq as <- Hq. exfalso.
      exact (Hapart pre post pre' post' r r' mid Hxs Hp Hq
               Hpre Hpost Hnan Hpre' Hnan').
  - destruct mid as [|z mid].
    + simpl in Hq. injection Hq as -> _. reflexivity.
    + simpl in Hq. injection Hq as <- Hq. exfalso.
      exact (Hapart pre' post' pre post r' r mid Hxs' Hp Hq
               Hpre' Hpost' Hnan' Hpre Hnan).
Qed.

(** X3 -- [max(ratio_dict, key=ratio_dict.get)].  The key chosen is the
    first maximum of the items and nothing else is: it is one of the items;
    no item has a score strictly greater than its score; every item before it
    has a strictly smaller score (unless that score is not a number), so that
    among items of equal greatest score the one seen first is chosen; and it
    is the first item when no later item is strictly greater than the
    first. *)
Theorem max_from_is_first_maximum best items :
  max_from best items ∈ best :: items /\
  (forall kv,
      kv ∈ best :: items -> ((max_from best items).2 <? kv.2)%float = false) /\
  ((forall kv, kv ∈ items -> (best.2 <? kv.2)%float = false) ->
   max_from best items = best) /\
  (exists pre post,
      best :: items = pre ++ max_from best items :: post /\
      (forall kv,
          kv ∈ pre ->
          (kv.2 <? (max_from best items).2)%float = true \/
          (kv.2 =? kv.2)%float = false) /\
      (forall kv,
          kv ∈ post -> ((max_from best items).2 <? kv.2)%float = false) /\
      ((best.2 =? best.2)%float = false -> pre = [])) /\
  (forall r, first_maximum (best :: items) r -> r = max_from best items).
Proof.
  split; [apply max_from_in|].
  split; [intros kv; apply max_from_greatest|].
  split; [apply max_from_first|].
  split.
  - destruct (max_from_first_maximum best items)
      as (pre & post & Heq & Hpre & Hpost & Hnan).
    exists pre, post. split; [exact Heq|]. split; [exact Hpre|].
    split; [exact Hpost|]. intros Hb. exact (Hnan best eq_refl Hb).
  - intros r Hr.
    exact (first_maximum_unique _ _ _ Hr (max_from_first_maximum best items)).
Qed.

Lemma scout_coin_unfold all_tickers coin s (p : float) :
  get_market_ticker_price_from_list all_tickers
    (coin_add coin (BRIDGE config)) = Some p ->
  let bal := get_currency_balance (symbol coin) (world s) in
  let minn := get_min_notional (symbol coin) (symbol (BRIDGE config)) bal.2 in
  (p * bal.1 <? minn.1)%float = false ->
  scout_coin config all_tickers coin s
  = let '(tr, r) :=
      _get_ratios config coin p all_tickers (set_world s minn.2) in
    let prefix :=
      EvBalance (symbol coin) bal.1
        :: EvMinNotional (symbol coin) (symbol (BRIDGE config)) minn.1 :: tr in
    match r with
    | Raise e s1 => (prefix, Raise e s1)
    | Ok d s1 =>
        match filter (fun kv => positive_score kv.2 = true) d with
        | [] => (prefix, Ok Next s1)
        | kv :: rest =>
            let '(trj, rj) :=
              transaction_through_bridge config (max_from kv rest).1
                all_tickers s1 in
            (prefix ++ trj,
             match rj with
             | Ok _ s2 => Ok Next s2
             | Raise e s2 => Raise e s2
             end)
        end
    end.
Proof.
  intros Hp. cbv zeta. intros Hv.
  unfold scout_coin, manager_get_currency_balance, manager_get_min_notional.
  rewrite bind_unfold, Hp. destruct (get_currency_balance _ _) as [b w].
  simpl in *. rewrite bind_unfold.
  destruct (get_min_notional _ _ _) as [m w']. simpl in *. rewrite Hv.
  rewrite bind_unfold.
  destruct (_get_ratios config coin p all_tickers _) as [tr [d s1|e s1]];
    [|reflexivity].
  destruct (filter _ d) as [|kv rest]; simpl;
    [rewrite app_nil_r; reflexivity|].
  rewrite bind_unfold.
  destruct (transaction_through_bridge _ _ _ _) as [trj [ok s2|e s2]]; simpl;
    rewrite ?app_nil_r; reflexivity.
Qed.

Lemma filter_positive_nil (d : list (Pair * float)) :
  existsb (fun kv => positive_score kv.2) d = false <->
  filter (fun kv : Pair * float => positive_score kv.2 = true) d = [].
Proof.
  induction d as [|kv d IH]; simpl; [tauto|].
  rewrite filter_cons. case_decide as Hkv.
  - rewrite Hkv. simpl. split; discriminate.
  - apply not_true_is_false in Hkv. rewrite Hkv. exact IH.
Qed.

(** X4 -- the jump [scout] attempts.  For a priced coin whose holdings are
    not below the minimum notional, when [_get_ratios] returns a mapping with
    some positive score, the iteration attempts exactly one jump, on a pair
    of the mapping whose score is positive and such that no pair of the
    mapping has a strictly greater score; whatever the jump answers, the loop
    goes on with the next coin unless the jump raises. *)
Theorem scout_jumps_to_best all_tickers coin s (p : float) tr d s1 :
  let bal := get_currency_balance (symbol coin) (world s) in
  let minn := get_min_notional (symbol coin) (symbol (BRIDGE config)) bal.2 in
  get_market_ticker_price_from_list all_tickers
    (coin_add coin (BRIDGE config)) = Some p ->
  (p * bal.1 <? minn.1)%float = false ->
  _get_ratios config coin p all_tickers (set_world s minn.2)
  = (tr, Ok d s1) ->
  existsb (fun kv => positive_score kv.2) d = true ->
  exists best v,
    (best, v) ∈ d /\ positive_score v = true /\
    (forall kv, kv ∈ d -> (v <? kv.2)%float = false) /\
    scout_coin config all_tickers coin s
    = let '(trj, rj) :=
        transaction_through_bridge config best all_tickers s1 in
      ((EvBalance (symbol coin) bal.1
          :: EvMinNotional (symbol coin) (symbol (BRIDGE config)) minn.1
          :: tr) ++ trj,
       match rj with
       | Ok _ s2 => Ok Next s2
       | Raise e s2 => Raise e s2
       end).
Proof.
  cbv zeta. intros Hp Hv Hg Hd.
  pose proof (scout_coin_unfold all_tickers coin s p Hp Hv) as Hu.
  cbv zeta in Hu. rewrite Hg in Hu.
  destruct (filter _ d) as [|kv rest] eqn:Hf.
  { apply filter_positive_nil in Hf. congruence. }
  pose proof (max_from_in kv rest) as Hin. rewrite <- Hf in Hin.
  apply list_elem_of_filter in Hin as [Hpos Hin].
  destruct (max_from kv rest) as [best v] eqn:Hm. simpl in *.
  exists best, v. split; [exact Hin|]. split; [exact Hpos|].
  split; [|exact Hu].
  intros kv' Hin'. destruct (positive_score kv'.2) eqn:Hpos'.
  - assert (kv' ∈ kv :: rest) as Hin''.
    { rewrite <- Hf. apply list_elem_of_filter. auto. }
    pose proof (max_from_greatest kv rest kv' Hin'') as Hgr.
    rewrite Hm in Hgr. exact Hgr.
  - unfold positive_score in *.
    destruct (v <? kv'.2)%float eqn:Hlt; [|reflexivity].
    rewrite (Binary64Order.ltb_trans _ _ _ Hpos Hlt) in Hpos'. discriminate.
Qed.

(** X5 -- no positive score, no jump.  For a priced coin whose holdings are
    not below the minimum notional, when [_get_ratios] returns a mapping with
    no positive score (the empty mapping included), the iteration places no
    order, changes no stored ratio and goes on with the next coin. *)
Theorem scout_without_candidate all_tickers coin s (p : float) tr d s1 :
  let bal := get_currency_balance (symbol coin) (world s) in
  let minn := get_min_notional (symbol coin) (symbol (BRIDGE config)) bal.2 in
  get_market_ticker_price_from_list all_tickers
    (coin_add coin (BRIDGE config)) = Some p ->
  (p * bal.1 <? minn.1)%float = false ->
  _get_ratios config coin p all_tickers (set_world s minn.2)
  = (tr, Ok d s1) ->
  existsb (fun kv => positive_score kv.2) d = false ->
  scout_coin config all_tickers coin s
  = (EvBalance (symbol coin) bal.1
       :: EvMinNotional (symbol coin) (symbol (BRIDGE config)) minn.1 :: tr,
     Ok Next (set_world s minn.2)) /\
  List.filter is_order (scout_coin config all_tickers coin s).1 = [].
Proof.
  cbv zeta. intros Hp Hv Hg Hd.
  pose proof (scout_coin_unfold all_tickers coin s p Hp Hv) as Hu.
  cbv zeta in Hu. rewrite Hg in Hu.
  apply filter_positive_nil in Hd. rewrite Hd in Hu.
  pose proof (get_ratios_readonly coin p all_tickers
                (set_world s
                   (get_min_notional (symbol coin) (symbol (BRIDGE config))
                      (get_currency_balance (symbol coin) (world s)).2).2))
    as Hs.
  rewrite Hg in Hs. simpl in Hs. subst s1.
  split; [exact Hu|]. rewrite Hu. simpl.
  pose proof (get_ratios_no_order coin p all_tickers
                (set_world s
                   (get_min_notional (symbol coin) (symbol (BRIDGE config))
                      (get_currency_balance (symbol coin) (world s)).2).2)
                Hp)
    as Hno.
  rewrite Hg in Hno. exact Hno.
Qed.

(** *** Sessions: what they keep and when they raise *)

Lemma session_loop_related (R : Pair -> Pair -> Prop) body rows :
  (forall row, R row row) ->
  (forall row row', body row = inr row' -> R row row') ->
  Forall2 R rows (session_loop body rows).1.
Proof.
  intros Hrefl Hb. induction rows as [|row rest IH]; simpl; [constructor|].
  destruct (body row) as [e|row'] eqn:Hrow; simpl.
  - apply Forall_Forall2_diag, Forall_forall. auto.
  - destruct (session_loop body rest) as [rest' e]. simpl in *.
    constructor; auto.
Qed.

Lemma session_loop_returns_iff body rows :
  (session_loop body rows).2 = None <->
  forall row, row ∈ rows -> exists row', body row = inr row'.
Proof.
  induction rows as [|row rest IH]; simpl.
  - split; [intros _ row Hin; inversion Hin|reflexivity].
  - destruct (body row) as [e|row'] eqn:Hrow; simpl.
    + split; [discriminate|]. intros H.
      destruct (H row) as [row' Hrow']; [left|]. congruence.
    + destruct (session_loop body rest) as [rest' e]. simpl in *.
      rewrite IH. split.
      * intros H row0 [-> | Hin]%elem_of_cons; eauto.
      * intros H row0 Hin. apply H. right. exact Hin.
Qed.

Lemma session_loop_raises e0 body rows :
  (forall row, body row = inr row \/ body row = inl e0) ->
  (session_loop body rows).1 = rows /\
  ((session_loop body rows).2 = None \/ (session_loop body rows).2 = Some e0).
Proof.
  intros Hb. induction rows as [|row rest [IH1 IH2]]; simpl; [auto|].
  destruct (Hb row) as [-> | ->]; simpl; [|auto].
  destruct (session_loop body rest) as [rest' e]. simpl in *.
  subst rest'. auto.
Qed.

Lemma same_row_refl row : same_row row row.
Proof. unfold same_row. auto. Qed.

Lemma same_rows_trans rows1 rows2 rows3 :
  same_rows rows1 rows2 -> same_rows rows2 rows3 -> same_rows rows1 rows3.
Proof.
  unfold same_rows. intros H12. revert rows3.
  induction H12 as [|r1 r2 l1 l2 (Hi & Hf & Ht & Hr) _ IH]; intros rows3 H23;
    inversion H23 as [|r2' r3 l2' l3 (Hi' & Hf' & Ht' & Hr') H23']; subst;
    constructor; [|auto].
  repeat split; try congruence. auto.
Qed.

Lemma update_row_same current_coin (f : float) all_tickers row row' :
  update_row config current_coin f all_tickers row = inr row' ->
  same_row row row'.
Proof.
  unfold update_row, py_div. destruct (coin_eqb _ _);
    [|intros [= <-]; apply same_row_refl].
  destruct (get_market_ticker_price_from_list _ _);
    [|intros [= <-]; apply same_row_refl].
  destruct (f =? 0)%float; [discriminate|]. intros [= <-].
  unfold same_row. simpl. eauto.
Qed.

Lemma initialize_row_same all_tickers row row' :
  initialize_row config all_tickers row = inr row' -> same_row row row'.
Proof.
  unfold initialize_row, py_div.
  destruct (ratio row); [intros [= <-]; apply same_row_refl|].
  destruct (negb _ || negb _); [intros [= <-]; apply same_row_refl|].
  destruct (get_market_ticker_price_from_list _ (coin_add (from_coin row) _));
    [|intros [= <-]; apply same_row_refl].
  destruct (get_market_ticker_price_from_list _ (coin_add (to_coin row) _))
    as [q|]; [|intros [= <-]; apply same_row_refl].
  destruct (q =? 0)%float; [discriminate|]. intros [= <-].
  unfold same_row. simpl. eauto.
Qed.

Lemma scout_keeps (I : State -> Prop) :
  (forall s w, I s -> I (set_world s w)) ->
  (forall all_tickers pair order s,
      I s ->
      I (set_pairs s
           (session_loop
              (update_row config (to_coin pair) (order_price order)
                 all_tickers)
              (pairs s)).1)) ->
  forall s, I s -> I (final (scout config s).2).
Proof.
  intros Hw Hu s Hs.
  assert (forall t bal cs s0,
             I s0 ->
             I (final (for_each (scout_coin config t) cs s0).2) /\
             I (final (for_each (bridge_scout_coin config bal t) cs s0).2))
    as Hloops.
  { intros t bal cs s0 Hs0. split.
    - apply (triple_for_each I (fun _ => True) (scout_coin config t) cs);
        [|exact Hs0].
      intros coin. apply scout_coin_triple; auto.
    - apply (triple_for_each I (fun _ => True)
               (bridge_scout_coin config bal t) cs); [|exact Hs0].
      intros coin. apply bridge_scout_coin_triple; auto. }
  rewrite scout_unfold.
  destruct (get_all_market_tickers (world s)) as [t1 w1].
  pose proof (proj1 (Hloops t1 0%float (coins s) (set_world s w1)
                       (Hw _ _ Hs))) as H1.
  destruct (for_each _ _ _) as [tr1 [[] s'|e s']]; simpl in H1;
    [|exact H1|exact H1].
  rewrite bridge_scout_unfold.
  destruct (get_currency_balance _ _) as [b w].
  destruct (get_all_market_tickers w) as [t2 w'].
  pose proof (proj2 (Hloops t2 b (coins s')
                       (set_world (set_world s' w) w')
                       (Hw _ _ (Hw _ _ H1)))) as H2.
  destruct (for_each _ _ _) as [tr2 [fl s2|e s2]]; exact H2.
Qed.

(** X6 -- the rows are never added, removed, reordered or unset.  Whatever
    [initialize_trade_thresholds], [update_trade_threshold] or any number of
    scout passes do, and whether they return or raise, the pairs of the
    store afterwards are the pairs before, in the same number and order and
    with the same ids and endpoints, every ratio that was set is still set,
    and the tracked coins are the same. *)
Theorem rows_are_kept s :
  (same_rows (pairs s)
     (pairs (final (initialize_trade_thresholds config s).2)) /\
   coins (final (initialize_trade_thresholds config s).2) = coins s) /\
  (forall current_coin price all_tickers,
      same_rows (pairs s)
        (pairs (final (update_trade_threshold config current_coin price
                         all_tickers s).2)) /\
      coins (final (update_trade_threshold config current_coin price
                      all_tickers s).2) = coins s) /\
  (forall n,
      same_rows (pairs s) (pairs (final (passes config n s).2)) /\
      coins (final (passes config n s).2) = coins s).
Proof.
  assert (forall rows, same_rows rows rows) as Hrefl.
  { intros rows. apply Forall_Forall2_diag, Forall_forall.
    intros row _. apply same_row_refl. }
  split; [|split].
  - unfold initialize_trade_thresholds, manager_get_all_market_tickers,
      db_session, bind.
    destruct (get_all_market_tickers (world s)) as [t w]. simpl.
    pose proof (session_loop_related same_row (initialize_row config t)
                  (pairs s) same_row_refl (initialize_row_same t)) as H.
    destruct (session_loop _ (pairs s)) as [rows [e|]]; simpl in *; auto.
  - intros current_coin [f|] all_tickers; simpl; [|auto].
    unfold db_session.
    pose proof (session_loop_related same_row
                  (update_row config current_coin f all_tickers) (pairs s)
                  same_row_refl
                  (update_row_same current_coin f all_tickers)) as H.
    destruct (session_loop _ (pairs s)) as [rows [e|]]; simpl in *; auto.
  - intros n.
    set (I := fun s' : State =>
                same_rows (pairs s) (pairs s') /\ coins s' = coins s).
    assert (forall s', I s' -> I (final (scout config s').2)) as Hscout.
    { apply scout_keeps.
      - intros s' w H. exact H.
      - intros t pair order s' [H1 H2]. split; [|exact H2]. simpl.
        eapply same_rows_trans; [exact H1|].
        apply session_loop_related;
          [exact same_row_refl|apply update_row_same]. }
    assert (forall s0, I s0 -> I (final (passes config n s0).2)) as Hn.
    { induction n as [|n IH]; intros s0 Hs0; simpl; [exact Hs0|].
      rewrite bind_unfold. pose proof (Hscout s0 Hs0) as H1.
      destruct (scout config s0) as [tr [[] s1|e s1]]; simpl in *;
        [|exact H1].
      specialize (IH s1 H1). destruct (passes config n s1) as [tr' r].
      exact IH. }
    apply (Hn s). split; [apply Hrefl|reflexivity].
Qed.

(** X7 -- the bridge check never recalibrates.  [bridge_scout] leaves every
    pair of the store exactly as it was, ratios included, and the tracked
    coins too, whether it buys, does not buy or raises: unlike a jump, a buy
    made from the bridge balance updates no threshold. *)
Theorem bridge_scout_keeps_ratios s :
  pairs (final (bridge_scout config s).2) = pairs s /\
  coins (final (bridge_scout config s).2) = coins s.
Proof.
  rewrite bridge_scout_unfold.
  destruct (get_currency_balance _ _) as [b w].
  destruct (get_all_market_tickers w) as [t w'].
  set (I := fun s' : State => pairs s' = pairs s /\ coins s' = coins s).
  assert (I (final (for_each (bridge_scout_coin config b t) (coins s)
                      (set_world (set_world s w) w')).2)) as H.
  { apply (triple_for_each I (fun _ => True)
             (bridge_scout_coin config b t) (coins s)).
    - intros coin. apply bridge_scout_coin_triple; auto.
    - split; reflexivity. }
  destruct (for_each _ _ _) as [tr [fl s'|e s']]; exact H.
Qed.

(** *** Recalibration: retries and a zero fill price *)

Lemma update_row_idempotent current_coin (f : float) all_tickers row row' :
  update_row config current_coin f all_tickers row = inr row' ->
  update_row config current_coin f all_tickers row' = inr row'.
Proof.
  unfold update_row at 1, py_div.
  destruct (coin_eqb (to_coin row) current_coin) eqn:Hto;
    [|intros [= <-]; unfold update_row; rewrite Hto; reflexivity].
  destruct (get_market_ticker_price_from_list _ _) as [p|] eqn:Hp;
    [|intros [= <-]; unfold update_row; rewrite Hto, Hp; reflexivity].
  destruct (f =? 0)%float eqn:Hf; [discriminate|]. intros [= <-].
  unfold update_row, py_div. simpl. rewrite Hto, Hp, Hf. reflexivity.
Qed.

(** X8 -- recalibration can be retried.  When [update_trade_threshold]
    returns for a coin, a fill price and a snapshot, calling it again with
    the same three returns too and changes nothing: the ratio it assigns
    does not depend on the ratio it replaces. *)
Theorem recalibration_idempotent current_coin (f : float) all_tickers s tr s1 :
  update_trade_threshold config current_coin (Some f) all_tickers s
  = (tr, Ok tt s1) ->
  update_trade_threshold config current_coin (Some f) all_tickers s1
  = ([], Ok tt s1).
Proof.
  unfold update_trade_threshold, db_session.
  destruct (session_loop _ (pairs s)) as [rows [e|]] eqn:Hs; [discriminate|].
  intros [= <- <-]. simpl.
  rewrite (session_loop_idempotent _ _ _
             (update_row_idempotent current_coin f all_tickers) Hs).
  reflexivity.
Qed.

Lemma update_row_zero current_coin (f : float) all_tickers row :
  (f =? 0)%float = true ->
  (symbol (to_coin row) = symbol current_coin /\
   is_Some (get_market_ticker_price_from_list all_tickers
              (coin_add (from_coin row) (BRIDGE config))) ->
   update_row config current_coin f all_tickers row = inl ZeroDivisionError)
  /\
  (~ (symbol (to_coin row) = symbol current_coin /\
      is_Some (get_market_ticker_price_from_list all_tickers
                 (coin_add (from_coin row) (BRIDGE config)))) ->
   update_row config current_coin f all_tickers row = inr row).
Proof.
  intros Hf. unfold update_row, py_div, coin_eqb. rewrite Hf.
  case_bool_decide as Hto.
  - destruct (get_market_ticker_price_from_list _ _) as [p|].
    + split; [reflexivity|]. intros []. eauto.
    + split; [|reflexivity]. intros [_ [? [=]]].
  - split; [|reflexivity]. intros [? _]. contradiction.
Qed.

(** X9 -- recalibration at a zero fill price.  When the fill price is zero
    (of either sign), [update_trade_threshold] changes no ratio at all; it
    raises [ZeroDivisionError] if some pair into the coin has a from-side
    that is priced in the snapshot, and returns otherwise.  So a jump whose
    buy is filled at price zero has placed both orders when it raises. *)
Theorem recalibration_at_zero current_coin (f : float) all_tickers s :
  (f =? 0)%float = true ->
  let touched :=
    exists pair,
      pair ∈ pairs s /\ symbol (to_coin pair) = symbol current_coin /\
      is_Some (get_market_ticker_price_from_list all_tickers
                 (coin_add (from_coin pair) (BRIDGE config))) in
  (touched ->
   update_trade_threshold config current_coin (Some f) all_tickers s
   = ([], Raise ZeroDivisionError s)) /\
  (~ touched ->
   update_trade_threshold config current_coin (Some f) all_tickers s
   = ([], Ok tt s)) /\
  (forall pair o order,
      to_coin pair = current_coin -> order_price order = f -> touched ->
      let sold := sell_alt (from_coin pair) (BRIDGE config) (world s) in
      let bought :=
        buy_alt (to_coin pair) (BRIDGE config) all_tickers sold.2 in
      sold.1 = Some o -> bought.1 = Some order ->
      transaction_through_bridge config pair all_tickers s
      = ([EvSell (from_coin pair) (Some o);
          EvBuy (to_coin pair) (Some order)],
         Raise ZeroDivisionError (set_world s bought.2))).
Proof.
  intros Hf. cbv zeta.
  set (body := update_row config current_coin f all_tickers).
  assert (forall row, body row = inr row \/ body row = inl ZeroDivisionError)
    as Hbody.
  { intros row. destruct (update_row_zero current_coin f all_tickers row Hf)
      as [H1 H2].
    destruct (decide (symbol (to_coin row) = symbol current_coin /\
                      is_Some (get_market_ticker_price_from_list all_tickers
                                 (coin_add (from_coin row) (BRIDGE config)))));
      auto. }
  assert (forall rows,
             (session_loop body rows).2 = None <->
             ~ exists pair,
                 pair ∈ rows /\ symbol (to_coin pair) = symbol current_coin /\
                 is_Some (get_market_ticker_price_from_list all_tickers
                            (coin_add (from_coin pair) (BRIDGE config))))
    as Hnone.
  { intros rows. rewrite session_loop_returns_iff. split.
    - intros H (pair & Hin & Hto & Hp). destruct (H pair Hin) as [row' Hrow].
      unfold body in Hrow.
      rewrite (proj1 (update_row_zero current_coin f all_tickers pair Hf))
        in Hrow by auto.
      discriminate.
    - intros H row Hin. exists row.
      apply (proj2 (update_row_zero current_coin f all_tickers row Hf)).
      intros [Hto Hp]. apply H. eauto. }
  assert (forall s0 : State,
             (exists pair,
                 pair ∈ pairs s0 /\
                 symbol (to_coin pair) = symbol current_coin /\
                 is_Some (get_market_ticker_price_from_list all_tickers
                            (coin_add (from_coin pair) (BRIDGE config)))) ->
             db_session body s0 = ([], Raise ZeroDivisionError s0)) as Hraise.
  { intros s0 Ht. unfold db_session.
    destruct (session_loop_raises ZeroDivisionError body (pairs s0) Hbody)
      as [Hrows He].
    pose proof (Hnone (pairs s0)) as Hn.
    destruct (session_loop body (pairs s0)) as [rows e]. simpl in *.
    subst rows. destruct s0 as [w ps cs].
    destruct He as [-> | ->]; [|reflexivity].
    exfalso. apply (proj1 Hn); auto. }
  split; [|split].
  - exact (Hraise s).
  - intros Ht. unfold update_trade_threshold, db_session. fold body.
    destruct (session_loop_raises ZeroDivisionError body (pairs s) Hbody)
      as [Hrows _].
    pose proof (proj2 (Hnone (pairs s)) Ht) as Hn.
    destruct (session_loop body (pairs s)) as [rows e]. simpl in *.
    subst rows e. destruct s as [w ps cs]. reflexivity.
  - intros pair o order <- <- Ht Hsold Hbought.
    unfold transaction_through_bridge, manager_sell_alt, manager_buy_alt.
    rewrite bind_unfold.
    destruct (sell_alt _ _ _) as [sold w1]. simpl in *. subst sold.
    rewrite bind_unfold.
    destruct (buy_alt _ _ _ _) as [bought w2]. simpl in *. subst bought.
    rewrite bind_unfold. unfold update_trade_threshold. fold body.
    rewrite (Hraise (set_world (set_world s w1) w2) Ht). reflexivity.
Qed.

(** *** Initialization: when it raises, and what it guarantees *)

Lemma initialize_row_returns all_tickers row :
  (exists row', initialize_row config all_tickers row = inr row') <->
  (ratio row = None ->
   enabled (from_coin row) = true -> enabled (to_coin row) = true ->
   forall p q,
     get_market_ticker_price_from_list all_tickers
       (coin_add (from_coin row) (BRIDGE config)) = Some p ->
     get_market_ticker_price_from_list all_tickers
       (coin_add (to_coin row) (BRIDGE config)) = Some q ->
     (q =? 0)%float = false).
Proof.
  unfold initialize_row, py_div.
  destruct (ratio row); [split; [discriminate|eauto]|].
  destruct (enabled (from_coin row)); simpl;
    [|split; [discriminate|eauto]].
  destruct (enabled (to_coin row)); simpl; [|split; [discriminate|eauto]].
  destruct (get_market_ticker_price_from_list _ (coin_add (from_coin row) _))
    as [p|]; [|split; [discriminate|eauto]].
  destruct (get_market_ticker_price_from_list _ (coin_add (to_coin row) _))
    as [q|]; [|split; [discriminate|eauto]].
  destruct (q =? 0)%float eqn:Hz.
  - split; [intros [row' [=]]|].
    intros H. rewrite (H eq_refl eq_refl eq_refl p q eq_refl eq_refl) in Hz.
    discriminate.
  - split; [|eauto]. intros _ _ _ _ p' q' _ [= <-]. exact Hz.
Qed.

(** X10 -- when initialization raises.  [initialize_trade_thresholds]
    returns if and only if, on the snapshot it fetches, no pair that it would
    initialize (ratio unset, both endpoints enabled and priced) has a
    to-side price of zero; otherwise the division raises. *)
Theorem initialize_returns_iff s :
  let all_tickers := (get_all_market_tickers (world s)).1 in
  (exists tr s', initialize_trade_thresholds config s = (tr, Ok tt s')) <->
  forall pair,
    pair ∈ pairs s ->
    ratio pair = None ->
    enabled (from_coin pair) = true -> enabled (to_coin pair) = true ->
    forall p q,
      get_market_ticker_price_from_list all_tickers
        (coin_add (from_coin pair) (BRIDGE config)) = Some p ->
      get_market_ticker_price_from_list all_tickers
        (coin_add (to_coin pair) (BRIDGE config)) = Some q ->
      (q =? 0)%float = false.
Proof.
  cbv zeta.
  unfold initialize_trade_thresholds, manager_get_all_market_tickers,
    db_session, bind.
  destruct (get_all_market_tickers (world s)) as [t w]. simpl.
  pose proof (session_loop_returns_iff (initialize_row config t) (pairs s))
    as Hiff.
  destruct (session_loop _ (pairs s)) as [rows e]. simpl in *.
  split.
  - intros (tr & s' & H). destruct e as [e|]; [discriminate|].
    intros pair Hin.
    apply initialize_row_returns, (proj1 Hiff eq_refl pair Hin).
  - intros H. rewrite (proj2 Hiff); [eauto|].
    intros row Hin. apply initialize_row_returns, H, Hin.
Qed.

Lemma initialize_row_sets all_tickers old new :
  initialize_row config all_tickers old = inr new ->
  from_coin new = from_coin old /\ to_coin new = to_coin old /\
  (enabled (from_coin old) = true -> enabled (to_coin old) = true ->
   is_Some (get_market_ticker_price_from_list all_tickers
              (coin_add (from_coin old) (BRIDGE config))) ->
   is_Some (get_market_ticker_price_from_list all_tickers
              (coin_add (to_coin old) (BRIDGE config))) ->
   is_Some (ratio new)).
Proof.
  unfold initialize_row, py_div.
  destruct (ratio old) as [r|] eqn:Hr;
    [intros [= <-]; rewrite Hr; eauto|].
  destruct (enabled (from_coin old)); simpl;
    [|intros [= <-]; repeat split; discriminate].
  destruct (enabled (to_coin old)); simpl;
    [|intros [= <-]; repeat split; discriminate].
  destruct (get_market_ticker_price_from_list _ (coin_add (from_coin old) _))
    as [p|]; [|intros [= <-]; repeat split; intros _ _ [? [=]]].
  destruct (get_market_ticker_price_from_list _ (coin_add (to_coin old) _))
    as [q|]; [|intros [= <-]; repeat split; intros _ _ _ [? [=]]].
  destruct (q =? 0)%float; [discriminate|]. intros [= <-]. simpl. eauto.
Qed.

(** X11 -- initialization makes scouting safe.  After a call of
    [initialize_trade_thresholds] that returns, and on the snapshot it
    fetched: for a coin priced in that snapshot all of whose pairs have both
    endpoints enabled and no counterpart priced at zero, [_get_ratios]
    returns a mapping; no pair of the coin is left with the unset ratio that
    would raise [TypeError]. *)
Theorem initialized_pairs_can_be_scouted s tr s1 coin (p : float) :
  let all_tickers := (get_all_market_tickers (world s)).1 in
  initialize_trade_thresholds config s = (tr, Ok tt s1) ->
  get_market_ticker_price_from_list all_tickers
    (coin_add coin (BRIDGE config)) = Some p ->
  (forall pair,
      pair ∈ pairs_from coin (pairs s) ->
      enabled (from_coin pair) = true /\ enabled (to_coin pair) = true) ->
  (forall pair q,
      pair ∈ pairs_from coin (pairs s) ->
      get_market_ticker_price_from_list all_tickers
        (coin_add (to_coin pair) (BRIDGE config)) = Some q ->
      (q =? 0)%float = false) ->
  exists tr' d, _get_ratios config coin p all_tickers s1 = (tr', Ok d s1).
Proof.
  cbv zeta.
  unfold initialize_trade_thresholds, manager_get_all_market_tickers,
    db_session, bind.
  destruct (get_all_market_tickers (world s)) as [t w]. simpl.
  destruct (session_loop _ (pairs s)) as [rows [e|]] eqn:Hs; [discriminate|].
  intros [= <- <-] Hp Hen Hnz. apply session_loop_rows in Hs.
  unfold _get_ratios. rewrite bind_unfold. simpl.
  destruct (get_ratios_loop_returns config p t (pairs_from coin rows)
              (set_pairs (set_world s w) rows)) as (tr' & d & ->); [|eauto].
  intros pair q [Hfrom Hin]%list_elem_of_filter Hq.
  apply list_elem_of_lookup in Hin as [i Hi].
  destruct (Forall2_lookup_r _ _ _ _ _ Hs Hi) as (old & Hold & Hrow).
  destruct (initialize_row_sets t old pair Hrow) as (Hf & Ht & Hset).
  assert (old ∈ pairs_from coin (pairs s)) as Hin.
  { apply list_elem_of_filter. split; [rewrite <- Hf; exact Hfrom|].
    exact (list_elem_of_lookup_2 _ _ _ Hold). }
  destruct (Hen old Hin) as [He1 He2].
  split; [apply (Hnz old q Hin); rewrite <- Ht; exact Hq|].
  apply Hset; auto.
  - rewrite <- Hf, (coin_add_from config coin pair Hfrom), Hp. eauto.
  - rewrite <- Ht, Hq. eauto.
Qed.

(** *** The orders of a pass *)








(** *** [update_values] *)

Lemma update_values_loop_rows all_tickers (now : Z) rows s :
  exists bals s',
    length bals = length rows /\
    update_values_loop all_tickers now rows s
    = (zip_with (fun c b => EvBalance (symbol c) b) rows bals,
       Ok (omap (value_row all_tickers now) (zip rows bals)) s') /\
    pairs s' = pairs s /\ coins s' = coins s.
Proof.
  revert s. induction rows as [|coin rest IH]; intros s; simpl.
  - exists [], s. auto.
  - rewrite bind_unfold. unfold manager_get_currency_balance.
    destruct (get_currency_balance _ _) as [b w]. simpl.
    destruct (IH (set_world s w)) as (bals & s' & Hlen & Hrun & Hp & Hc).
    exists (b :: bals), s'. split; [simpl; lia|]. split; [|auto].
    simpl. unfold value_row at 1. simpl.
    destruct (b =? 0)%float.
    + rewrite Hrun. reflexivity.
    + rewrite bind_unfold, Hrun. simpl. rewrite app_nil_r. reflexivity.
Qed.

(** X13 -- [update_values].  It fetches one snapshot, reads the balance of
    every coin of the table in order, and never raises.  It writes one row
    per coin whose balance is not zero, in order, with that balance, the
    coin's USDT and BTC prices of the snapshot ([None] when the snapshot has
    no such price: the coin is recorded all the same) and the one timestamp
    taken before the loop; a coin of zero balance gets no row.  It changes
    no pair and no tracked coin. *)
Theorem update_values_rows (now : Z) all_coins s :
  let all_tickers := (get_all_market_tickers (world s)).1 in
  exists bals s',
    length bals = length all_coins /\
    update_values now all_coins s
    = (EvTickers all_tickers
         :: zip_with (fun c b => EvBalance (symbol c) b) all_coins bals,
       Ok (omap (value_row all_tickers now) (zip all_coins bals)) s') /\
    pairs s' = pairs s /\ coins s' = coins s.
Proof.
  cbv zeta. unfold update_values, manager_get_all_market_tickers.
  rewrite bind_unfold.
  destruct (get_all_market_tickers (world s)) as [t w]. simpl.
  destruct (update_values_loop_rows t now all_coins (set_world s w))
    as (bals & s' & Hlen & -> & Hp & Hc).
  exists bals, s'. auto.
Qed.

End Further.

(** ** Runs for the further properties *)

(** The membership of a row in a concrete list of rows, case by case. *)
Ltac each_row H :=
  vm_compute in H;
  repeat (apply elem_of_cons in H as [-> | H]);
  try (inversion H; fail).

(** Scouting A on the quiet venue: one record, for A -> B; A -> C is not
    priced and leaves none. *)
Lemma get_ratios_records_witness :
  [EvLogScout Example.pairAB (Some 1.5%float) 10%float 5%float]
  = omap (scout_record Example.config Example.tickers 10%float)
      (pairs_from Example.A (pairs Example.store3)) /\
  length [EvLogScout Example.pairAB (Some 1.5%float) 10%float 5%float]
  = length [(Example.pairAB, 0.498%float)].
Proof.
  apply (@get_ratios_records (scripted Example.quiet) Example.config
           Example.A 10%float Example.tickers Example.store3
           [EvLogScout Example.pairAB (Some 1.5%float) 10%float 5%float]
           [(Example.pairAB, 0.498%float)] Example.store3).
  vm_compute. reflexivity.
Defined.

(** Scouting A where orders are filled: the one positive score is that of
    A -> B, and the jump is attempted on it. *)
Lemma scout_jumps_to_best_witness :
  exists best v,
    (best, v) ∈ [(Example.pairAB, 0.498%float)] /\
    positive_score v = true /\
    (forall kv,
        kv ∈ [(Example.pairAB, 0.498%float)] -> (v <? kv.2)%float = false) /\
    scout_coin Example.config Example.tickers Example.A Example.store4
    = let '(trj, rj) :=
        transaction_through_bridge Example.config best Example.tickers
          Example.store4 in
      ((EvBalance "A" 100%float :: EvMinNotional "A" "USDT" 10%float
          :: [EvLogScout Example.pairAB (Some 1.5%float) 10%float 5%float])
         ++ trj,
       match rj with
       | Ok _ s2 => Ok Next s2
       | Raise e s2 => Raise e s2
       end).
Proof.
  apply (@scout_jumps_to_best (scripted Example.eager) Example.config
           Example.tickers Example.A Example.store4 10%float
           [EvLogScout Example.pairAB (Some 1.5%float) 10%float 5%float]
           [(Example.pairAB, 0.498%float)] Example.store4);
    vm_compute; reflexivity.
Defined.

(** Scouting B where orders are filled: B -> A scores below zero, so no
    order is placed. *)
Lemma scout_without_candidate_witness :
  scout_coin Example.config Example.tickers Example.B Example.store1
  = ([EvBalance "B" 100%float; EvMinNotional "B" "USDT" 10%float;
      EvLogScout Example.pairBA (Some 0.5%float) 5%float 10%float],
     Ok Next Example.store1) /\
  List.filter is_order
    (scout_coin Example.config Example.tickers Example.B Example.store1).1
  = [].
Proof.
  apply (@scout_without_candidate (scripted Example.eager) Example.config
           Example.tickers Example.B Example.store1 5%float
           [EvLogScout Example.pairBA (Some 0.5%float) 5%float 10%float]
           [(Example.pairBA, (5 / 10 - 0.001 * 1 * (5 / 10) - 0.5)%float)]
           Example.store1);
    vm_compute; reflexivity.
Defined.

(** Recalibrating for B at the fill price 4, twice. *)
Lemma recalibration_idempotent_witness :
  let recalibrated : @State (scripted Example.eager) :=
    @mkState (scripted Example.eager) 0%nat
      [set_ratio Example.pairAB 2.5%float; Example.pairAC; Example.pairBA;
       Example.pairCB]
      [Example.A; Example.B; Example.C] in
  update_trade_threshold Example.config Example.B (Some 4%float)
    Example.tickers recalibrated
  = ([], Ok tt recalibrated).
Proof.
  intros recalibrated.
  apply (@recalibration_idempotent (scripted Example.eager) Example.config
           Example.B 4%float Example.tickers Example.store4 [] recalibrated).
  vm_compute. reflexivity.
Defined.

(** Recalibrating for B at the fill price 0: A -> B has a priced from-side,
    so the call raises and the rows are as they were. *)
Lemma recalibration_at_zero_witness :
  update_trade_threshold Example.config Example.B (Some 0%float)
    Example.tickers Example.store4
  = ([], Raise ZeroDivisionError Example.store4).
Proof.
  apply (proj1 (@recalibration_at_zero (scripted Example.eager)
                  Example.config Example.B 0%float Example.tickers
                  Example.store4 eq_refl)).
  exists Example.pairAB. split; [left|]. split; [reflexivity|].
  exists 10%float. reflexivity.
Defined.

(** Initialization on the quiet venue sets A -> B and B -> A and leaves
    A -> C unset (C is not priced); scouting A then returns. *)
Lemma initialized_pairs_can_be_scouted_witness :
  let initialized : @State (scripted Example.quiet) :=
    @mkState (scripted Example.quiet) 1%nat
      [mkPair 1 Example.A Example.B (Some 2%float);
       mkPair 2 Example.A Example.C None;
       mkPair 3 Example.B Example.A (Some 0.5%float)]
      [Example.A; Example.B; Example.C] in
  exists tr' d,
    _get_ratios Example.config Example.A 10%float Example.tickers initialized
    = (tr', Ok d initialized).
Proof.
  intros initialized.
  apply (@initialized_pairs_can_be_scouted (scripted Example.quiet)
           Example.config Example.fresh_enabled
           [EvTickers Example.tickers] initialized Example.A 10%float).
  - vm_compute. reflexivity.
  - reflexivity.
  - intros pair Hin. each_row Hin; split; reflexivity.
  - intros pair q Hin Hq. each_row Hin; vm_compute in Hq;
      try discriminate Hq; injection Hq as <-; reflexivity.
Defined.

(** Scores 1, 5, 5: the first of the two items of score 5 is chosen. *)
Example max_from_tie :
  max_from (Example.pairAB, 1%float)
    [(Example.pairAC, 5%float); (Example.pairBA, 5%float)]
  = (Example.pairAC, 5%float).
Proof. vm_compute. reflexivity. Qed.

(** [update_values] where 100 is held of every coin: one row per coin; the
    snapshot has a USDT price for A only and no BTC price, and both rows are
    written all the same. *)
Example update_values_run :
  (update_values 7 [Example.A; Example.C] Example.store4).2
  = Ok [mkCoinValue Example.A 100%float (Some 10%float) None 7;
        mkCoinValue Example.C 100%float None None 7]
      (@mkState (scripted Example.eager) 1%nat (pairs Example.store4)
         (coins Example.store4)).
Proof. vm_compute. reflexivity. Qed.
